(** * Video-to-MP3 conversion API: request validation and response shaping

    The repository holds three variants of one HTTP service:
    - [Worker]: src/worker.js, a Cloudflare Worker whose transcoder returns a
      placeholder MP3 buffer;
    - [Worker2]: the second document of src/unnamed/part_000, a Cloudflare
      Worker whose transcoder always throws;
    - [Express]: the first document of src/unnamed/part_000, an Express
      server that shells out to ffmpeg through temporary files.

    JavaScript strings are sequences of UTF-16 code units, byte buffers are
    lists of bytes, handlers run in a small state-and-exception monad whose
    state is the log of transcoder invocations. [External] is the alternative
    transcoder of the second worker, [JSONParse] the reading of a JSON string
    that its page's script asks of [response.json()]. The clock is a parameter:
    [now] stands for [new Date().toISOString()]. Awaiting is sequencing, and
    timers are left out. The two HTML pages are parameters as well. *)

From Stdlib Require Import NArith ZArith List Ascii String Strings.Byte.
From Stdlib Require Import DecimalString DecimalPos Lia.
From stdpp Require Import base gmap sets list strings.

Set Warnings "-register-all".

Local Open Scope N_scope.

(** ** JavaScript values *)

Module JS.

(** A JavaScript string: its UTF-16 code units. *)
Abbreviation jsstring := (list N).

(** Source literals are ASCII; [u16] reads one. *)
Definition u16 (s : string) : jsstring :=
  (λ a, N_of_ascii a) <$> list_ascii_of_string s.

(** [String.prototype.toLowerCase] maps code points through Unicode's default
    lower-case conversion. The table below holds Basic Latin, Latin-1, and the
    two code points outside them whose lower case reaches into ASCII: U+0130
    (capital I with dot above), the one code point whose lower case is longer
    than itself, and U+212A (Kelvin sign). Every other cased code point maps
    to non-ASCII code units of the same number, and is left as it is: the
    comparisons of this program are against ASCII literals only. *)
Definition lowerUnit (c : N) : jsstring :=
  if (0x41 <=? c) && (c <=? 0x5A) then [c + 32]
  else if (0xC0 <=? c) && (c <=? 0xDE) && negb (c =? 0xD7) then [c + 32]
  else if c =? 0x130 then [0x69; 0x307]
  else if c =? 0x212A then [0x6B]
  else [c].

Definition toLowerCase (s : jsstring) : jsstring := flat_map lowerUnit s.

(** [s.lastIndexOf(c)] for a search string of one code unit: the index of
    its last occurrence, or -1. *)
Fixpoint lastIndexOf_from (s : jsstring) (c : N) (i acc : Z) : Z :=
  match s with
  | [] => acc
  | x :: t => lastIndexOf_from t c (i + 1) (if x =? c then i else acc)
  end.

Definition lastIndexOf (s : jsstring) (c : N) : Z :=
  lastIndexOf_from s c 0%Z (-1)%Z.

(** [s.substring(start)]: a negative start counts as 0, one past the end as
    the length. *)
Definition substring (s : jsstring) (start : Z) : jsstring :=
  drop (Z.to_nat (Z.max 0 start)) s.

(** [s.includes(p)]: [p] occurs in [s] as a contiguous run. *)
Fixpoint startsWith (s p : jsstring) : bool :=
  match p, s with
  | [], _ => true
  | _ :: _, [] => false
  | a :: p', b :: s' => (a =? b) && startsWith s' p'
  end.

Fixpoint includes (s p : jsstring) : bool :=
  startsWith s p ||
  match s with
  | [] => false
  | _ :: t => includes t p
  end.

(** [array.includes(x)] on an array of strings. *)
Definition arrayIncludes (l : list jsstring) (x : jsstring) : bool :=
  bool_decide (x ∈ l).

(** [n.toString()] for a non-negative integer. *)
Definition toString (n : N) : jsstring :=
  u16 (NilZero.string_of_uint (N.to_uint n)).

(** *** JSON values and [JSON.stringify] *)

Inductive json : Type :=
| JString (s : jsstring)
| JBool (b : bool)
| JArray (items : list json)
| JObject (fields : list (jsstring * json)).

Definition hexDigit (d : N) : N :=
  if d <? 10 then 0x30 + d else 0x61 + (d - 10).

Definition unicodeEscape (c : N) : jsstring :=
  [0x5C; 0x75; hexDigit (c / 4096 mod 16); hexDigit (c / 256 mod 16);
   hexDigit (c / 16 mod 16); hexDigit (c mod 16)].

Definition isLeadSurrogate (c : N) : bool := (0xD800 <=? c) && (c <=? 0xDBFF).
Definition isTrailSurrogate (c : N) : bool := (0xDC00 <=? c) && (c <=? 0xDFFF).

(** The body of QuoteJSONString: two-character escapes, \u escapes for the
    other control characters and for unpaired surrogates. *)
Fixpoint quoteUnits (s : jsstring) : jsstring :=
  match s with
  | [] => []
  | c :: t =>
    if c =? 0x08 then [0x5C; 0x62] ++ quoteUnits t
    else if c =? 0x09 then [0x5C; 0x74] ++ quoteUnits t
    else if c =? 0x0A then [0x5C; 0x6E] ++ quoteUnits t
    else if c =? 0x0C then [0x5C; 0x66] ++ quoteUnits t
    else if c =? 0x0D then [0x5C; 0x72] ++ quoteUnits t
    else if c =? 0x22 then [0x5C; 0x22] ++ quoteUnits t
    else if c =? 0x5C then [0x5C; 0x5C] ++ quoteUnits t
    else if c <? 0x20 then unicodeEscape c ++ quoteUnits t
    else if isLeadSurrogate c then
      match t with
      | d :: t' =>
        if isTrailSurrogate d then c :: d :: quoteUnits t'
        else unicodeEscape c ++ quoteUnits t
      | [] => unicodeEscape c
      end
    else if isTrailSurrogate c then unicodeEscape c ++ quoteUnits t
    else c :: quoteUnits t
  end.

Definition quoteJSONString (s : jsstring) : jsstring :=
  [0x22] ++ quoteUnits s ++ [0x22].

Fixpoint joinComma (l : list jsstring) : jsstring :=
  match l with
  | [] => []
  | [x] => x
  | x :: t => x ++ [0x2C] ++ joinComma t
  end.

Fixpoint JSON_stringify (v : json) : jsstring :=
  match v with
  | JString s => quoteJSONString s
  | JBool true => u16 "true"
  | JBool false => u16 "false"
  | JArray items => [0x5B] ++ joinComma (List.map JSON_stringify items) ++ [0x5D]
  | JObject fields =>
    [0x7B] ++
    joinComma (List.map (λ kv, quoteJSONString (fst kv) ++ [0x3A] ++ JSON_stringify (snd kv)) fields)
    ++ [0x7D]
  end.

(** Property access on a value that is an object. *)
Fixpoint assocGet {A} (l : list (jsstring * A)) (k : jsstring) : option A :=
  match l with
  | [] => None
  | (k', v) :: t => if bool_decide (k' = k) then Some v else assocGet t k
  end.

Definition jsonGet (v : json) (k : jsstring) : option json :=
  match v with
  | JObject fields => assocGet fields k
  | _ => None
  end.

(** *** Responses *)

Inductive Body : Type :=
| BodyNull
| BodyText (s : jsstring)
| BodyBuffer (b : list byte).

Record Response : Type := mkResponse {
  status : N;
  headers : list (jsstring * jsstring);
  body : Body
}.

(** [Headers.get]: header names compare without regard to ASCII case. *)
Fixpoint headersGet (hs : list (jsstring * jsstring)) (name : jsstring) : option jsstring :=
  match hs with
  | [] => None
  | (k, v) :: t =>
    if bool_decide (toLowerCase k = toLowerCase name) then Some v else headersGet t name
  end.

(** [new Response(body, {status, headers})]: the status defaults to 200, and
    a string body without a declared content type is text/plain. Header
    values are stored as given. *)
Definition newResponse (b : Body) (st : option N) (hs : list (jsstring * jsstring)) : Response :=
  {| status := default 200 st;
     headers :=
       match b, headersGet hs (u16 "content-type") with
       | BodyText _, None => hs ++ [(u16 "content-type", u16 "text/plain;charset=UTF-8")]
       | _, _ => hs
       end;
     body := b |}.

(** *** Uploaded files and requests *)

Module File.

Record t : Type := mk { name : jsstring; type : jsstring; bytes : list byte }.

(** [file.size] is the length of the payload. *)
Definition size (f : t) : N := N.of_nat (length (bytes f)).

End File.

Inductive FormDataEntryValue : Type :=
| FormString (s : jsstring)
| FormFile (f : File.t).

Abbreviation FormData := (list (jsstring * FormDataEntryValue)).

(** *** Exceptions, and handlers that log transcoder calls *)

Inductive Result (A : Type) : Type :=
| Ok (a : A)
| Throw (message : jsstring).
Arguments Ok {A} a.
Arguments Throw {A} message.

#[export] Instance Result_ret : MRet Result := λ A a, Ok a.
#[export] Instance Result_bind : MBind Result := λ A B f m,
  match m with
  | Ok a => f a
  | Throw e => Throw e
  end.

Definition tryCatchR {A} (m : Result A) (handler : jsstring → Result A) : Result A :=
  match m with
  | Ok a => Ok a
  | Throw e => handler e
  end.

(** The log of transcoder invocations, oldest first. *)
Abbreviation Calls := (list File.t).

Definition M (A : Type) : Type := Calls → Result A * Calls.

#[export] Instance M_ret : MRet M := λ A a calls, (Ok a, calls).
#[export] Instance M_bind : MBind M := λ A B f m calls,
  match m calls with
  | (Ok a, calls') => f a calls'
  | (Throw e, calls') => (Throw e, calls')
  end.

Definition liftR {A} (r : Result A) : M A := λ calls, (r, calls).

Definition tryCatch {A} (m : M A) (handler : jsstring → M A) : M A := λ calls,
  match m calls with
  | (Ok a, calls') => (Ok a, calls')
  | (Throw e, calls') => handler e calls'
  end.

(** A call of the transcoder on [f]: logged, then run. *)
Definition invoke {A} (convert : File.t → Result A) (f : File.t) : M A :=
  λ calls, (convert f, calls ++ [f]).

Record Request : Type := mkRequest {
  method : jsstring;
  pathname : jsstring;                 (* new URL(request.url).pathname *)
  requestHeaders : list (jsstring * jsstring);
  formData : Result FormData           (* the outcome of request.formData() *)
}.

(** *** Typed arrays *)

Definition newUint8Array (n : nat) : list byte := replicate n x00.

(** [target.set(source, offset)]: a RangeError when the source does not fit. *)
Definition typedArraySet (target source : list byte) (offset : nat) : Result (list byte) :=
  if bool_decide (offset + length source ≤ length target)%nat
  then Ok (take offset target ++ source ++ drop (offset + length source) target)
  else Throw (u16 "offset is out of bounds").

End JS.

Import JS.

(** ** src/worker.js: the placeholder variant *)

Module Worker.

(** [text.replace(/\.[^/.]+$/, '')]: the first position where a dot is
    followed, up to the end of the text, by one or more code units that are
    neither a slash nor a dot; the text is cut there. Without such a position
    it is returned whole. *)
Definition notSlashOrDot (c : N) : bool := negb (c =? 0x2F) && negb (c =? 0x2E).

Definition matchesExtensionAt (s : jsstring) : bool :=
  match s with
  | c :: ((_ :: _) as rest) => (c =? 0x2E) && forallb notSlashOrDot rest
  | _ => false
  end.

Fixpoint replaceExtension (s : jsstring) : jsstring :=
  if matchesExtensionAt s then []
  else match s with
       | [] => []
       | c :: t => c :: replaceExtension t
       end.

Definition mp3Header : list byte :=
  [xff; xfb; x90; x00;
   x00; x00; x00; x00;
   x00; x00; x00; x00;
   x00; x00; x00; x00].

Definition simpleVideoToMp3Conversion (videoBuffer : list byte) : Result (list byte) :=
  let audioData := newUint8Array 1024 in
  let result := newUint8Array (length mp3Header + length audioData) in
  result ← typedArraySet result mp3Header 0;
  result ← typedArraySet result audioData (length mp3Header);
  mret result.

Definition convertVideoToMp3 (videoFile : File.t) : Result (option (list byte)) :=
  tryCatchR
    (videoBuffer ← Ok (File.bytes videoFile);
     mp3Data ← simpleVideoToMp3Conversion videoBuffer;
     mret (Some mp3Data))
    (λ error, mret None).

Definition videoExtensions : list jsstring :=
  [u16 ".mp4"; u16 ".avi"; u16 ".mov"; u16 ".mkv"; u16 ".webm"; u16 ".flv"; u16 ".wmv"].

Definition isVideoFile (filename : jsstring) : bool :=
  let ext := substring (toLowerCase filename) (lastIndexOf filename 0x2E) in
  arrayIncludes videoExtensions ext.

Definition allowedTypes : list jsstring :=
  [u16 "video/mp4"; u16 "video/avi"; u16 "video/mov"; u16 "video/mkv"; u16 "video/webm"].

Definition maxSize : N := 50 * 1024 * 1024.

Section Runtime.

(** The value of [new Date().toISOString()] while the request is served, the
    page that [getApiDocs()] returns (a constant of the source, 120 lines of
    HTML), and the transcoder that the convert handler calls. *)
Variable now : jsstring.
Variable getApiDocs : jsstring.
Variable convert : File.t → Result (option (list byte)).

Definition createErrorResponse (message : jsstring) (status : N) : Response :=
  newResponse
    (BodyText (JSON_stringify (JObject
       [(u16 "error", JBool true);
        (u16 "message", JString message);
        (u16 "timestamp", JString now)])))
    (Some status)
    [(u16 "Content-Type", u16 "application/json");
     (u16 "Access-Control-Allow-Origin", u16 "*")].

Definition handleStatus : M Response :=
  mret (newResponse
    (BodyText (JSON_stringify (JObject
       [(u16 "status", JString (u16 "operational"));
        (u16 "service", JString (u16 "Video to MP3 Converter"));
        (u16 "version", JString (u16 "1.0.0"));
        (u16 "timestamp", JString now);
        (u16 "limits", JObject
           [(u16 "maxFileSize", JString (u16 "50MB"));
            (u16 "supportedFormats",
             JArray [JString (u16 "mp4"); JString (u16 "avi"); JString (u16 "mov");
                     JString (u16 "mkv"); JString (u16 "webm")])])])))
    None
    [(u16 "Content-Type", u16 "application/json");
     (u16 "Access-Control-Allow-Origin", u16 "*")]).

Definition handleConversionWith (request : Request) : M Response :=
  tryCatch
    (match headersGet (requestHeaders request) (u16 "content-type") with
     | Some ((_ :: _) as contentType) =>
       if negb (includes contentType (u16 "multipart/form-data")) then
         mret (createErrorResponse (u16 "Content-Type must be multipart/form-data") 400)
       else
         formData ← liftR (formData request);
         match assocGet formData (u16 "video") with
         | Some (FormFile videoFile) =>
           if negb (arrayIncludes allowedTypes (File.type videoFile))
              && negb (isVideoFile (File.name videoFile)) then
             mret (createErrorResponse (u16 "Invalid video file type") 400)
           else if maxSize <? File.size videoFile then
             mret (createErrorResponse (u16 "File too large. Maximum size is 50MB") 400)
           else
             mp3Buffer ← invoke convert videoFile;
             match mp3Buffer with
             | None => mret (createErrorResponse (u16 "Conversion failed") 500)
             | Some mp3Buffer =>
               let originalName := replaceExtension (File.name videoFile) in
               let mp3Filename := originalName ++ u16 ".mp3" in
               mret (newResponse (BodyBuffer mp3Buffer) (Some 200)
                 [(u16 "Content-Type", u16 "audio/mpeg");
                  (u16 "Content-Disposition",
                   u16 "attachment; filename=" ++ [0x22] ++ mp3Filename ++ [0x22]);
                  (u16 "Access-Control-Allow-Origin", u16 "*");
                  (u16 "Content-Length", toString (N.of_nat (length mp3Buffer)))])
             end
         | _ => mret (createErrorResponse (u16 "No video file provided") 400)
         end
     | _ => mret (createErrorResponse (u16 "Content-Type must be multipart/form-data") 400)
     end)
    (λ error, mret (createErrorResponse (u16 "Internal server error") 500)).

Definition fetchWith (request : Request) : M Response :=
  if bool_decide (method request = u16 "OPTIONS") then
    mret (newResponse BodyNull (Some 200)
      [(u16 "Access-Control-Allow-Origin", u16 "*");
       (u16 "Access-Control-Allow-Methods", u16 "GET, POST, OPTIONS");
       (u16 "Access-Control-Allow-Headers", u16 "Content-Type, Authorization");
       (u16 "Access-Control-Max-Age", u16 "86400")])
  else
    let path := pathname request in
    if bool_decide (path = u16 "/api/convert") && bool_decide (method request = u16 "POST") then
      handleConversionWith request
    else if bool_decide (path = u16 "/api/status") && bool_decide (method request = u16 "GET") then
      handleStatus
    else if bool_decide (path = u16 "/") && bool_decide (method request = u16 "GET") then
      mret (newResponse (BodyText getApiDocs) None [(u16 "Content-Type", u16 "text/html")])
    else
      mret (newResponse (BodyText (u16 "Not Found")) (Some 404) []).

End Runtime.

(** The handlers of the source, which call [convertVideoToMp3]. *)
Definition handleConversion (now : jsstring) : Request → M Response :=
  handleConversionWith now convertVideoToMp3.

Definition fetch (now getApiDocs : jsstring) : Request → M Response :=
  fetchWith now getApiDocs convertVideoToMp3.

End Worker.

(** ** src/unnamed/part_000, second document: the variant whose transcoder throws *)

Module Worker2.

(** The two-second timer that precedes the throw is not modelled. *)
Definition convertVideoToMP3 (videoFile : File.t) : Result (list byte) :=
  tryCatchR
    (Throw (u16 "Video conversion requires FFmpeg or external service integration"))
    (λ message, Throw (u16 "Conversion failed: " ++ message)).

Definition allowedTypes : list jsstring :=
  [u16 "video/mp4"; u16 "video/avi"; u16 "video/mov"; u16 "video/wmv"; u16 "video/flv";
   u16 "video/webm"].

Definition maxSize : N := 50 * 1024 * 1024.

Definition createResponse (data : json) (status : N) : Response :=
  newResponse (BodyText (JSON_stringify data)) (Some status)
    [(u16 "Content-Type", u16 "application/json");
     (u16 "Access-Control-Allow-Origin", u16 "*");
     (u16 "Access-Control-Allow-Methods", u16 "POST, GET, OPTIONS");
     (u16 "Access-Control-Allow-Headers", u16 "Content-Type")].

Definition handleCORS : Response :=
  newResponse BodyNull (Some 200)
    [(u16 "Access-Control-Allow-Origin", u16 "*");
     (u16 "Access-Control-Allow-Methods", u16 "POST, GET, OPTIONS");
     (u16 "Access-Control-Allow-Headers", u16 "Content-Type")].

Section Runtime.

Variable now : jsstring.
Variable getHTMLInterface : jsstring.
Variable convert : File.t → Result (list byte).

Definition handleStatusCheck : M Response :=
  mret (createResponse (JObject
    [(u16 "status", JString (u16 "online"));
     (u16 "timestamp", JString now);
     (u16 "supported_formats",
      JArray [JString (u16 "mp4"); JString (u16 "avi"); JString (u16 "mov");
              JString (u16 "wmv"); JString (u16 "flv"); JString (u16 "webm")]);
     (u16 "max_file_size", JString (u16 "50MB"))]) 200).

Definition invalidTypeMessage : jsstring :=
  u16 "Invalid file type. Supported formats: MP4, AVI, MOV, WMV, FLV, WEBM".

(** [formData.get('video')] is null, a string or a File. A null and an empty
    string are falsy; a non-empty string has no [type] property, and
    [allowedTypes.includes(undefined)] is false. *)
Definition handleVideoConversionWith (request : Request) : M Response :=
  tryCatch
    (formData ← liftR (formData request);
     match assocGet formData (u16 "video") with
     | None | Some (FormString []) =>
       mret (createResponse (JObject [(u16 "error", JString (u16 "No video file provided"))]) 400)
     | Some (FormString (_ :: _)) =>
       mret (createResponse (JObject [(u16 "error", JString invalidTypeMessage)]) 400)
     | Some (FormFile videoFile) =>
       if negb (arrayIncludes allowedTypes (File.type videoFile)) then
         mret (createResponse (JObject [(u16 "error", JString invalidTypeMessage)]) 400)
       else if maxSize <? File.size videoFile then
         mret (createResponse
                 (JObject [(u16 "error", JString (u16 "File size exceeds 50MB limit"))]) 400)
       else
         mp3Buffer ← invoke convert videoFile;
         mret (newResponse (BodyBuffer mp3Buffer) None
           [(u16 "Content-Type", u16 "audio/mpeg");
            (u16 "Content-Disposition",
             u16 "attachment; filename=" ++ [0x22]
             ++ Worker.replaceExtension (File.name videoFile) ++ u16 ".mp3" ++ [0x22]);
            (u16 "Access-Control-Allow-Origin", u16 "*");
            (u16 "Access-Control-Allow-Methods", u16 "POST, GET, OPTIONS");
            (u16 "Access-Control-Allow-Headers", u16 "Content-Type")])
     end)
    (λ message,
       mret (createResponse
               (JObject [(u16 "error", JString (u16 "Conversion failed: " ++ message))]) 500)).

Definition handleRequestWith (request : Request) : M Response :=
  let path := pathname request in
  if bool_decide (method request = u16 "OPTIONS") then mret handleCORS
  else if bool_decide (path = u16 "/api/convert") && bool_decide (method request = u16 "POST") then
    handleVideoConversionWith request
  else if bool_decide (path = u16 "/api/status") && bool_decide (method request = u16 "GET") then
    handleStatusCheck
  else if bool_decide (path = u16 "/") && bool_decide (method request = u16 "GET") then
    mret (newResponse (BodyText getHTMLInterface) None [(u16 "Content-Type", u16 "text/html")])
  else
    mret (newResponse (BodyText (u16 "Not Found")) (Some 404) []).

End Runtime.

Definition handleVideoConversion : Request → M Response :=
  handleVideoConversionWith convertVideoToMP3.

Definition handleRequest (now getHTMLInterface : jsstring) : Request → M Response :=
  handleRequestWith now getHTMLInterface convertVideoToMP3.

End Worker2.

(** ** src/unnamed/part_000, first document: the Express server *)

Module Express.

(** What [ffmpeg(...).save(outputPath)] ends with: the [end] event, after the
    output file is written, or the [error] event, which may leave a partial
    output file behind. *)
Inductive FfmpegEvent : Type :=
| FfmpegEnd
| FfmpegError (partialOutput : bool).

(** What [res.download(path, callback)] does: it calls back once the
    transfer is over (also when it failed), or it throws before that. *)
Inductive DownloadOutcome : Type :=
| DownloadCallsBack
| DownloadThrows.

Inductive Reply : Type :=
| ReplyDownload (path : string)
| ReplySend (status : N) (text : string)
| ReplyNone.

(** The files on disk, and what the handler answered. *)
Record World : Type := mkWorld {
  files : gset string;
  reply : Reply
}.

Inductive Outcome : Type :=
| Done (w : World)
| Uncaught (w : World).

Definition worldOf (o : Outcome) : World :=
  match o with Done w | Uncaught w => w end.

(** [fs.unlinkSync(path)] throws when the file does not exist. *)
Definition unlinkSync (path : string) (w : World) : option World :=
  if bool_decide (path ∈ files w)
  then Some {| files := files w ∖ {[path]}; reply := reply w |}
  else None.

(** The route handler of [app.post('/convert', upload.single('video'), ...)].
    [reqFile] is [req.file.path], the temporary file multer wrote, when a
    file was uploaded; [uuid] is the value of [uuidv4()]. *)
Definition convert (reqFile : option string) (uuid : string)
    (event : FfmpegEvent) (download : DownloadOutcome) (w : World) : Outcome :=
  match reqFile with
  | None => Uncaught w
  | Some inputPath =>
    let outputName := (uuid +:+ ".mp3")%string in
    let outputPath := ("output/" +:+ outputName)%string in
    match event with
    | FfmpegEnd =>
      let w := {| files := files w ∪ {[outputPath]}; reply := reply w |} in
      match unlinkSync inputPath w with
      | None => Uncaught w
      | Some w =>
        match download with
        | DownloadThrows => Uncaught w
        | DownloadCallsBack =>
          let w := {| files := files w; reply := ReplyDownload outputPath |} in
          match unlinkSync outputPath w with
          | None => Uncaught w
          | Some w => Done w
          end
        end
      end
    | FfmpegError partialOutput =>
      let w := {| files := if partialOutput then files w ∪ {[outputPath]} else files w;
                  reply := reply w |} in
      Done {| files := files w; reply := ReplySend 500 "Conversion failed" |}
    end
  end.

End Express.

(** ** The specification's canonical pipeline *)

Module Spec.

(** The canonical allow-lists: the union of the variants' MIME lists, the
    extension list, and the formats the status endpoint is to report. *)
Definition canonicalMimeTypes : list jsstring :=
  [u16 "video/mp4"; u16 "video/avi"; u16 "video/mov"; u16 "video/mkv"; u16 "video/webm";
   u16 "video/wmv"; u16 "video/flv"].

Definition allowedExtensions : list jsstring :=
  [u16 ".mp4"; u16 ".avi"; u16 ".mov"; u16 ".mkv"; u16 ".webm"; u16 ".flv"; u16 ".wmv"].

Definition canonicalFormats : list json :=
  [JString (u16 "mp4"); JString (u16 "avi"); JString (u16 "mov"); JString (u16 "mkv");
   JString (u16 "webm"); JString (u16 "flv"); JString (u16 "wmv")].

Definition maxUploadSize : N := 50 * 1024 * 1024.

(** The extension of a filename: what starts at its last dot. A name without
    a dot has none. *)
Fixpoint finalExtension (filename : jsstring) : option jsstring :=
  match filename with
  | [] => None
  | c :: t =>
    match finalExtension t with
    | Some e => Some e
    | None => if c =? 0x2E then Some (c :: t) else None
    end
  end.

(** The extension matches when, in lower case, it is on the list. *)
Definition extensionAllowed (filename : jsstring) : bool :=
  match finalExtension filename with
  | Some e => bool_decide (toLowerCase e ∈ allowedExtensions)
  | None => false
  end.

(** What precedes the last dot; the whole name when it has no dot. *)
Fixpoint baseName (filename : jsstring) : jsstring :=
  match filename with
  | [] => []
  | c :: t =>
    match finalExtension t with
    | Some _ => c :: baseName t
    | None => if c =? 0x2E then [] else c :: baseName t
    end
  end.

(** The filename with its final extension stripped. A dot that ends the name,
    or one followed by a path separator, starts no extension. *)
Definition stripFinalExtension (filename : jsstring) : jsstring :=
  match finalExtension filename with
  | Some (_ :: ((_ :: _) as ext)) =>
    if forallb (λ c, negb (c =? 0x2F)) ext then baseName filename else filename
  | _ => filename
  end.

(** Filenames on which lower-casing keeps every code unit in its place: those
    without U+0130. *)
Definition lengthStable (filename : jsstring) : Prop := 0x130 ∉ filename.

Inductive ValidationResult : Type :=
| Accepted (upload : File.t)
| Rejected (reason : jsstring) (httpStatus : N).

(** The Upload Validator, steps 1 and 3 to 5, over a type check. *)
Definition validate (typeAllowed : File.t → bool) (video : option FormDataEntryValue)
  : ValidationResult :=
  match video with
  | Some (FormFile upload) =>
    if negb (typeAllowed upload) then Rejected (u16 "Invalid video file type") 400
    else if maxUploadSize <? File.size upload then
      Rejected (u16 "File too large. Maximum size is 50MB") 400
    else Accepted upload
  | _ => Rejected (u16 "No video file provided") 400
  end.

(** The canonical type check: the declared type or the extension is allowed. *)
Definition canonicalTypeAllowed (upload : File.t) : bool :=
  bool_decide (File.type upload ∈ canonicalMimeTypes) || extensionAllowed (File.name upload).

(** The type checks with each variant's own MIME list; the second variant
    has no extension fallback. *)
Definition workerTypeAllowed (upload : File.t) : bool :=
  bool_decide (File.type upload ∈ Worker.allowedTypes) || extensionAllowed (File.name upload).

Definition worker2TypeAllowed (upload : File.t) : bool :=
  bool_decide (File.type upload ∈ Worker2.allowedTypes).

(** An upload: a multipart request whose form parsed. *)
Definition isUpload (request : Request) (form : FormData) : Prop :=
  (∃ contentType, headersGet (requestHeaders request) (u16 "content-type") = Some contentType
                  ∧ includes contentType (u16 "multipart/form-data") = true)
  ∧ formData request = Ok form.

(** The form's file, if it has one, bears a name that lower-casing does not
    lengthen. *)
Definition lengthStableForm (form : FormData) : Prop :=
  ∀ upload, assocGet form (u16 "video") = Some (FormFile upload) →
            lengthStable (File.name upload).

(** The first variant's handler lets an upload through to the transcoder. *)
Definition workerAccepts (upload : File.t) : Prop :=
  (File.type upload ∈ Worker.allowedTypes ∨ Worker.isVideoFile (File.name upload) = true)
  ∧ File.size upload ≤ maxUploadSize.

(** The second variant's handler lets an upload through to the transcoder:
    the declared type is on its list, there is no extension fallback. *)
Definition worker2Accepts (upload : File.t) : Prop :=
  File.type upload ∈ Worker2.allowedTypes ∧ File.size upload ≤ maxUploadSize.

(** The Content-Length value: the number that a non-empty run of decimal
    digits denotes. A string that is empty, or holds any other code unit,
    denotes none. *)
Fixpoint decimalValueFrom (acc : N) (digits : jsstring) : option N :=
  match digits with
  | [] => Some acc
  | c :: t =>
    if (0x30 <=? c) && (c <=? 0x39) then decimalValueFrom (10 * acc + (c - 0x30)) t
    else None
  end.

Definition decimalValue (digits : jsstring) : option N :=
  match digits with
  | [] => None
  | _ :: _ => decimalValueFrom 0 digits
  end.

(** The routes that answer through the API handlers: the preflight, the
    convert endpoint and the status endpoint. *)
Definition isApiRoute (request : Request) : bool :=
  bool_decide (method request = u16 "OPTIONS")
  || bool_decide (pathname request = u16 "/api/convert")
     && bool_decide (method request = u16 "POST")
  || bool_decide (pathname request = u16 "/api/status")
     && bool_decide (method request = u16 "GET").

(** A response carries the permissive cross-origin header. *)
Definition allowsAnyOrigin (r : Response) : bool :=
  bool_decide (headersGet (headers r) (u16 "Access-Control-Allow-Origin") = Some (u16 "*")).

End Spec.

(** ** Sample requests *)

Module Samples.

Definition now : jsstring := u16 "2024-01-01T00:00:00.000Z".

Definition multipart : list (jsstring * jsstring) :=
  [(u16 "content-type", u16 "multipart/form-data; boundary=x")].

Definition upload (f : File.t) : Request :=
  {| method := u16 "POST"; pathname := u16 "/api/convert"; requestHeaders := multipart;
     formData := Ok [(u16 "video", FormFile f)] |}.

Definition tenBytes : list byte := replicate 10 x2a.

(** clip.MOV, declared video/mov, ten bytes. *)
Definition clipMov : File.t :=
  {| File.name := u16 "clip.MOV"; File.type := u16 "video/mov"; File.bytes := tenBytes |}.

(** A declared type of the canonical list, and no extension. *)
Definition wmvNoExtension : File.t :=
  {| File.name := u16 "clip"; File.type := u16 "video/wmv"; File.bytes := tenBytes |}.

(** An allowed extension, and no declared type. *)
Definition mp4NoType : File.t :=
  {| File.name := u16 "clip.mp4"; File.type := []; File.bytes := tenBytes |}.

(** One byte over the limit. *)
Definition oversized : File.t :=
  {| File.name := u16 "clip.mp4"; File.type := u16 "video/mp4";
     File.bytes := replicate (N.to_nat 52428801) x00 |}.

(** İstanbul.mp4 *)
Definition istanbul : jsstring := 0x130 :: u16 "stanbul.mp4".

Definition page : jsstring := u16 "<!DOCTYPE html>".

Definition get (path : string) : Request :=
  {| method := u16 "GET"; pathname := u16 path; requestHeaders := []; formData := Ok [] |}.

Definition options (path : string) : Request :=
  {| method := u16 "OPTIONS"; pathname := u16 path; requestHeaders := []; formData := Ok [] |}.

(** A transcoder that answers four bytes, whatever it is given. *)
Definition stub (f : File.t) : Result (option (list byte)) :=
  Ok (Some [xff; xfb; x90; x00]).

(** The same answer from a transcoder of the second worker's signature. *)
Definition stub2 (f : File.t) : Result (list byte) :=
  Ok [xff; xfb; x90; x00].

(** The Express handler's files: multer's upload and ffmpeg's output. *)
Definition inputPath : string := "uploads/3f2a".
Definition uuid : string := "9b1d".
Definition outputPath : string := "output/9b1d.mp3".
Definition disk : Express.World :=
  {| Express.files := {[inputPath]}; Express.reply := Express.ReplyNone |}.

End Samples.

(** ** The alternative transcoder of the second worker *)

Module External.

(** What the conversion service answers: [response.ok] and the bytes of
    [response.arrayBuffer()]. *)
Record ServiceResponse : Type := mkServiceResponse {
  ok : bool;
  arrayBuffer : list byte
}.

Section Service.

(** [fetch('https://api.example-converter.com/convert', ...)] on a form: the
    answer of the service, or the failure of the request. The address, the
    method and the Authorization header are constants of the source. *)
Variable service : FormData → Result ServiceResponse.

Definition convertVideoToMP3External (videoFile : File.t) : Result (list byte) :=
  let formData :=
    [(u16 "video", FormFile videoFile); (u16 "output_format", FormString (u16 "mp3"))] in
  response ← service formData;
  if negb (ok response) then Throw (u16 "External conversion service failed")
  else Ok (arrayBuffer response).

End Service.

End External.

(** ** Reading a JSON string, as [response.json()] does in the page's script *)

Module JSONParse.

Definition hexValue (c : N) : option N :=
  if (0x30 <=? c) && (c <=? 0x39) then Some (c - 0x30)
  else if (0x61 <=? c) && (c <=? 0x66) then Some (c - 0x61 + 10)
  else if (0x41 <=? c) && (c <=? 0x46) then Some (c - 0x41 + 10)
  else None.

Definition hex4 (a b c d : N) : option N :=
  a ← hexValue a; b ← hexValue b; c ← hexValue c; d ← hexValue d;
  Some (4096 * a + 256 * b + 16 * c + d).

(** The character that follows a backslash, other than u. *)
Definition simpleEscape (e : N) : option N :=
  if e =? 0x22 then Some 0x22
  else if e =? 0x5C then Some 0x5C
  else if e =? 0x2F then Some 0x2F
  else if e =? 0x62 then Some 0x08
  else if e =? 0x66 then Some 0x0C
  else if e =? 0x6E then Some 0x0A
  else if e =? 0x72 then Some 0x0D
  else if e =? 0x74 then Some 0x09
  else None.

Definition consUnit (c : N) (r : option (jsstring * jsstring)) : option (jsstring * jsstring) :=
  '(s, rest) ← r; Some (c :: s, rest).

(** The characters of a string up to its closing quote, and what follows the
    quote. A raw control character, a bad escape and a missing closing quote
    are syntax errors. *)
Fixpoint readUnits (s : jsstring) : option (jsstring * jsstring) :=
  match s with
  | [] => None
  | c :: t =>
    if c =? 0x22 then Some ([], t)
    else if c =? 0x5C then
      match t with
      | [] => None
      | e :: t' =>
        if e =? 0x75 then
          match t' with
          | a :: b :: c' :: d :: t'' =>
            match hex4 a b c' d with
            | Some v => consUnit v (readUnits t'')
            | None => None
            end
          | _ => None
          end
        else
          match simpleEscape e with
          | Some v => consUnit v (readUnits t')
          | None => None
          end
      end
    else if c <? 0x20 then None
    else consUnit c (readUnits t)
  end.

Definition readJSONString (s : jsstring) : option (jsstring * jsstring) :=
  match s with
  | c :: t => if c =? 0x22 then readUnits t else None
  | [] => None
  end.

End JSONParse.

(** ** Routes *)

Module Routes.

(** The request matches one of the four routes of the routers. *)
Definition matchesRoute (request : Request) : bool :=
  Spec.isApiRoute request
  || bool_decide (pathname request = u16 "/") && bool_decide (method request = u16 "GET").

End Routes.

(** * Proofs *)

(** ** Filenames and extensions *)

Lemma finalExtension_None (s : jsstring) :
  Spec.finalExtension s = None ↔ 0x2E ∉ s.
Proof.
  induction s as [|c t IH]; simpl.
  - split; [intros _; apply not_elem_of_nil | done].
  - destruct (Spec.finalExtension t) as [e|] eqn:He.
    + split; [done|]. intros Hn. exfalso.
      assert (Ht : 0x2E ∉ t) by (intros ?; apply Hn; by right).
      apply IH in Ht. done.
    + destruct (N.eqb_spec c 0x2E) as [->|Hc].
      * split; [done|]. intros Hn. exfalso. apply Hn. by left.
      * split; [|done]. intros _ [?|?]%elem_of_cons; [congruence|].
        by apply (proj1 IH).
Qed.

Lemma finalExtension_suffix (s e : jsstring) :
  Spec.finalExtension s = Some e → ∃ b t, s = b ++ e ∧ e = 0x2E :: t ∧ 0x2E ∉ t.
Proof.
  revert e. induction s as [|c t IH]; intros e; simpl; [done|].
  destruct (Spec.finalExtension t) as [e'|] eqn:He.
  - intros [= <-]. destruct (IH e' eq_refl) as (b & t' & -> & -> & Hn).
    by exists (c :: b), t'.
  - destruct (N.eqb_spec c 0x2E) as [->|Hc]; [|done].
    intros [= <-]. exists [], t. split_and!; [done..|].
    by apply finalExtension_None.
Qed.


Lemma lastIndexOf_from_spec (s : jsstring) (i acc : Z) :
  lastIndexOf_from s 0x2E i acc =
  match Spec.finalExtension s with
  | Some e => (i + Z.of_nat (length s - length e))%Z
  | None => acc
  end.
Proof.
  revert i acc. induction s as [|c t IH]; intros i acc; simpl; [done|].
  rewrite IH. destruct (Spec.finalExtension t) as [e|] eqn:He.
  - apply finalExtension_suffix in He as (b & t' & -> & -> & _).
    rewrite !length_app. simpl. lia.
  - destruct (c =? 0x2E); [|done]. simpl. lia.
Qed.

(** The index that [lastIndexOf] returns splits the name at its extension. *)
Lemma lastIndexOf_finalExtension (s : jsstring) :
  match Spec.finalExtension s with
  | Some e => ∃ b, s = b ++ e ∧ lastIndexOf s 0x2E = Z.of_nat (length b)
  | None => lastIndexOf s 0x2E = (-1)%Z
  end.
Proof.
  unfold lastIndexOf. rewrite lastIndexOf_from_spec.
  destruct (Spec.finalExtension s) as [e|] eqn:He; [|done].
  apply finalExtension_suffix in He as (b & t & -> & -> & _).
  exists b. split; [done|]. rewrite !length_app. simpl. lia.
Qed.

(** *** Lower-casing *)

Lemma toLowerCase_app (a b : jsstring) :
  toLowerCase (a ++ b) = toLowerCase a ++ toLowerCase b.
Proof. apply flat_map_app. Qed.

Ltac lowerUnit_cases c :=
  unfold lowerUnit;
  destruct (N.leb_spec 0x41 c); destruct (N.leb_spec c 0x5A);
  destruct (N.leb_spec 0xC0 c); destruct (N.leb_spec c 0xDE);
  destruct (N.eqb_spec c 0xD7); destruct (N.eqb_spec c 0x130);
  destruct (N.eqb_spec c 0x212A); simpl; try lia.

Lemma lowerUnit_length (c : N) : c ≠ 0x130 → length (lowerUnit c) = 1%nat.
Proof. intros Hc. lowerUnit_cases c; done. Qed.

Lemma lowerUnit_dot (c : N) : 0x2E ∈ lowerUnit c ↔ c = 0x2E.
Proof.
  split.
  - lowerUnit_cases c; rewrite ?elem_of_cons, ?elem_of_nil; lia.
  - intros ->. vm_compute. by left.
Qed.

Lemma toLowerCase_length (s : jsstring) :
  Spec.lengthStable s → length (toLowerCase s) = length s.
Proof.
  unfold Spec.lengthStable. induction s as [|c t IH]; [done|].
  intros Hn. simpl. rewrite length_app, lowerUnit_length, IH; [done|..].
  - intros ?. apply Hn. by right.
  - intros ->. apply Hn. by left.
Qed.

Lemma toLowerCase_dot (s : jsstring) : 0x2E ∈ toLowerCase s ↔ 0x2E ∈ s.
Proof.
  induction s as [|c t IH]; simpl; [done|].
  rewrite elem_of_app, elem_of_cons, IH, lowerUnit_dot.
  split; (intros [?|?]; [by left | by right]).
Qed.

Lemma extension_has_dot (e : jsstring) : e ∈ Spec.allowedExtensions → 0x2E ∈ e.
Proof.
  unfold Spec.allowedExtensions. rewrite !elem_of_cons, elem_of_nil.
  intros H. repeat (destruct H as [->|H]; [vm_compute; by left|]). done.
Qed.

(** On a name that lower-casing does not lengthen, [isVideoFile] tests the
    extension. *)
Lemma isVideoFile_extensionAllowed (filename : jsstring) :
  Spec.lengthStable filename →
  Worker.isVideoFile filename = Spec.extensionAllowed filename.
Proof.
  intros Hstable. unfold Worker.isVideoFile, Spec.extensionAllowed, arrayIncludes, substring.
  change Worker.videoExtensions with Spec.allowedExtensions.
  pose proof (lastIndexOf_finalExtension filename) as Hlast.
  destruct (Spec.finalExtension filename) as [e|] eqn:He.
  - destruct Hlast as (b & -> & ->).
    rewrite Z.max_r, Nat2Z.id by lia.
    rewrite toLowerCase_app, <- (toLowerCase_length b).
    + by rewrite drop_app_length.
    + unfold Spec.lengthStable in *. rewrite elem_of_app in Hstable. tauto.
  - rewrite Hlast. change (Z.to_nat (0 `max` (-1))) with 0%nat. rewrite drop_0.
    apply bool_decide_eq_false_2. intros Hin. apply extension_has_dot in Hin.
    rewrite toLowerCase_dot in Hin. exact (proj1 (finalExtension_None _) He Hin).
Qed.

(** X19: a name without a dot is never taken for a video, whatever it
    holds: the whole lower-cased name is compared with the extensions, all of
    which start with a dot. *)
Lemma isVideoFile_no_dot (filename : jsstring) :
  0x2E ∉ filename → Worker.isVideoFile filename = false.
Proof.
  intros Hn. unfold Worker.isVideoFile, arrayIncludes, substring.
  pose proof (lastIndexOf_finalExtension filename) as Hlast.
  apply finalExtension_None in Hn as He. rewrite He in Hlast. rewrite Hlast.
  change (Z.to_nat (0 `max` (-1))) with 0%nat. rewrite drop_0.
  apply bool_decide_eq_false_2. intros Hin. apply extension_has_dot in Hin.
  rewrite toLowerCase_dot in Hin. exact (Hn Hin).
Qed.

Lemma finalExtension_app_no_dot (a r : jsstring) :
  0x2E ∉ a → Spec.finalExtension (a ++ r) = Spec.finalExtension r.
Proof.
  induction a as [|c a IH]; [done|]. intros Hn. simpl.
  rewrite IH by (intros ?; apply Hn; by right).
  destruct (Spec.finalExtension r); [done|].
  destruct (N.eqb_spec c 0x2E) as [->|]; [|done].
  exfalso. apply Hn. by left.
Qed.

Lemma finalExtension_toLowerCase (s : jsstring) :
  Spec.finalExtension (toLowerCase s) = toLowerCase <$> Spec.finalExtension s.
Proof.
  induction s as [|c t IH]; [done|].
  change (toLowerCase (c :: t)) with (lowerUnit c ++ toLowerCase t).
  destruct (N.eqb_spec c 0x2E) as [->|Hc].
  - change (lowerUnit 0x2E) with [0x2E]. simpl. rewrite IH.
    by destruct (Spec.finalExtension t).
  - rewrite finalExtension_app_no_dot by (by rewrite lowerUnit_dot).
    rewrite IH. simpl. destruct (Spec.finalExtension t); [done|].
    by destruct (N.eqb_spec c 0x2E).
Qed.

Lemma lowerUnit_idempotent (c : N) : toLowerCase (lowerUnit c) = lowerUnit c.
Proof.
  lowerUnit_cases c; try reflexivity; rewrite app_nil_r.
  all: first [ lowerUnit_cases (c + 32); reflexivity | lowerUnit_cases c; reflexivity ].
Qed.

Lemma toLowerCase_idempotent (s : jsstring) : toLowerCase (toLowerCase s) = toLowerCase s.
Proof.
  induction s as [|c t IH]; [done|]. simpl.
  by rewrite toLowerCase_app, lowerUnit_idempotent, IH.
Qed.

Lemma lowerUnit_stable (c : N) : 0x130 ∉ lowerUnit c.
Proof. lowerUnit_cases c; rewrite ?not_elem_of_cons; split_and?; try lia; apply not_elem_of_nil. Qed.

Lemma toLowerCase_stable (s : jsstring) : Spec.lengthStable (toLowerCase s).
Proof.
  unfold Spec.lengthStable. induction s as [|c t IH]; simpl; [apply not_elem_of_nil|].
  rewrite elem_of_app. intros [?|?]; [by eapply lowerUnit_stable | done].
Qed.

(** The extension test does not see the case of the name. *)
Lemma extensionAllowed_toLowerCase (filename : jsstring) :
  Spec.extensionAllowed (toLowerCase filename) = Spec.extensionAllowed filename.
Proof.
  unfold Spec.extensionAllowed. rewrite finalExtension_toLowerCase.
  destruct (Spec.finalExtension filename); simpl; [|done].
  by rewrite toLowerCase_idempotent.
Qed.

(** X18: on every name without U+0130 the verdict of [isVideoFile] is that
    of the lower-cased name: upper and lower case are not told apart. *)
Lemma isVideoFile_toLowerCase (filename : jsstring) :
  Spec.lengthStable filename →
  Worker.isVideoFile filename = Worker.isVideoFile (toLowerCase filename).
Proof.
  intros Hstable. rewrite !isVideoFile_extensionAllowed; [|apply toLowerCase_stable|done].
  by rewrite extensionAllowed_toLowerCase.
Qed.

(** *** Stripping the extension *)

Lemma forallb_notSlashOrDot (s : jsstring) :
  forallb Worker.notSlashOrDot s = forallb (λ c, negb (c =? 0x2F)) s && bool_decide (0x2E ∉ s).
Proof.
  induction s as [|c t IH]; [done|]. simpl. rewrite IH. unfold Worker.notSlashOrDot.
  destruct (N.eqb_spec c 0x2E) as [->|Hc].
  - rewrite (bool_decide_eq_false_2 (0x2E ∉ 0x2E :: t)) by (intros Hn; apply Hn; by left).
    by rewrite !andb_false_r.
  - rewrite (bool_decide_ext (0x2E ∉ c :: t) (0x2E ∉ t)).
    + by destruct (c =? 0x2F).
    + rewrite not_elem_of_cons. split; [tauto | split; [congruence | done]].
Qed.

Lemma stripFinalExtension_no_dot (s : jsstring) :
  0x2E ∉ s → Spec.stripFinalExtension s = s.
Proof.
  intros Hn%finalExtension_None. unfold Spec.stripFinalExtension. by rewrite Hn.
Qed.

(** The regular-expression replacement cuts the name where the specification
    does. *)
Lemma replaceExtension_stripFinalExtension (filename : jsstring) :
  Worker.replaceExtension filename = Spec.stripFinalExtension filename.
Proof.
  induction filename as [|c t IH]; [done|].
  unfold Spec.stripFinalExtension in *. simpl Spec.finalExtension. simpl Spec.baseName.
  cbn [Worker.replaceExtension].
  destruct (Spec.finalExtension t) as [e|] eqn:He.
  - (* a later dot: no match here *)
    assert (Hdot : 0x2E ∈ t).
    { destruct (decide (0x2E ∈ t)) as [|Hn]; [done|].
      apply finalExtension_None in Hn. congruence. }
    assert (Hm : Worker.matchesExtensionAt (c :: t) = false).
    { destruct t as [|d t']; [done|]. cbn [Worker.matchesExtensionAt].
      rewrite forallb_notSlashOrDot, (bool_decide_eq_false_2 (0x2E ∉ d :: t')) by tauto.
      by rewrite !andb_false_r. }
    rewrite Hm, IH.
    destruct e as [|? [|? ?]]; try done.
    by destruct (forallb _ _).
  - apply finalExtension_None in He as Hn.
    rewrite IH. clear IH.
    destruct (N.eqb_spec c 0x2E) as [->|Hc].
    + destruct t as [|d t']; [done|]. cbn [Worker.matchesExtensionAt].
      rewrite forallb_notSlashOrDot, (bool_decide_eq_true_2 (0x2E ∉ d :: t')) by done.
      rewrite andb_true_r. change (0x2E =? 0x2E) with true. cbn [andb].
      by destruct (forallb _ (d :: t')).
    + assert (Hm : Worker.matchesExtensionAt (c :: t) = false).
      { destruct t; [done|]. cbn [Worker.matchesExtensionAt].
        by destruct (N.eqb_spec c 0x2E). }
      by rewrite Hm.
Qed.
Ltac unfold_monad :=
  unfold tryCatch, tryCatchR, liftR, invoke, mbind, mret, M_bind, M_ret, Result_bind, Result_ret.

(** ** The convert handlers, path by path *)

Lemma handleConversionWith_upload now convert request form calls :
  Spec.isUpload request form →
  Worker.handleConversionWith now convert request calls =
  match assocGet form (u16 "video") with
  | Some (FormFile videoFile) =>
    if negb (arrayIncludes Worker.allowedTypes (File.type videoFile))
       && negb (Worker.isVideoFile (File.name videoFile)) then
      (Ok (Worker.createErrorResponse now (u16 "Invalid video file type") 400), calls)
    else if Worker.maxSize <? File.size videoFile then
      (Ok (Worker.createErrorResponse now (u16 "File too large. Maximum size is 50MB") 400),
       calls)
    else
      match convert videoFile with
      | Ok (Some mp3Buffer) =>
        (Ok (newResponse (BodyBuffer mp3Buffer) (Some 200)
               [(u16 "Content-Type", u16 "audio/mpeg");
                (u16 "Content-Disposition",
                 u16 "attachment; filename=" ++ [0x22]
                 ++ (Worker.replaceExtension (File.name videoFile) ++ u16 ".mp3") ++ [0x22]);
                (u16 "Access-Control-Allow-Origin", u16 "*");
                (u16 "Content-Length", toString (N.of_nat (length mp3Buffer)))]),
         calls ++ [videoFile])
      | Ok None =>
        (Ok (Worker.createErrorResponse now (u16 "Conversion failed") 500), calls ++ [videoFile])
      | Throw _ =>
        (Ok (Worker.createErrorResponse now (u16 "Internal server error") 500),
         calls ++ [videoFile])
      end
  | _ => (Ok (Worker.createErrorResponse now (u16 "No video file provided") 400), calls)
  end.
Proof.
  intros [(contentType & Hget & Hinc) Hform].
  unfold Worker.handleConversionWith. unfold_monad. rewrite Hget, Hform.
  destruct contentType as [|c ct]; [done|]. rewrite Hinc. cbn [negb].
  destruct (assocGet form (u16 "video")) as [[s|videoFile]|]; [done| |done].
  destruct (negb _ && negb _); [done|].
  destruct (Worker.maxSize <? _); [done|].
  by destruct (convert videoFile) as [[buf|]|e].
Qed.

Lemma handleVideoConversionWith_parsed convert request form calls :
  formData request = Ok form →
  Worker2.handleVideoConversionWith convert request calls =
  match assocGet form (u16 "video") with
  | None | Some (FormString []) =>
    (Ok (Worker2.createResponse
           (JObject [(u16 "error", JString (u16 "No video file provided"))]) 400), calls)
  | Some (FormString (_ :: _)) =>
    (Ok (Worker2.createResponse
           (JObject [(u16 "error", JString Worker2.invalidTypeMessage)]) 400), calls)
  | Some (FormFile videoFile) =>
    if negb (arrayIncludes Worker2.allowedTypes (File.type videoFile)) then
      (Ok (Worker2.createResponse
             (JObject [(u16 "error", JString Worker2.invalidTypeMessage)]) 400), calls)
    else if Worker2.maxSize <? File.size videoFile then
      (Ok (Worker2.createResponse
             (JObject [(u16 "error", JString (u16 "File size exceeds 50MB limit"))]) 400),
       calls)
    else
      match convert videoFile with
      | Ok mp3Buffer =>
        (Ok (newResponse (BodyBuffer mp3Buffer) None
               [(u16 "Content-Type", u16 "audio/mpeg");
                (u16 "Content-Disposition",
                 u16 "attachment; filename=" ++ [0x22]
                 ++ Worker.replaceExtension (File.name videoFile) ++ u16 ".mp3" ++ [0x22]);
                (u16 "Access-Control-Allow-Origin", u16 "*");
                (u16 "Access-Control-Allow-Methods", u16 "POST, GET, OPTIONS");
                (u16 "Access-Control-Allow-Headers", u16 "Content-Type")]),
         calls ++ [videoFile])
      | Throw message =>
        (Ok (Worker2.createResponse
               (JObject [(u16 "error", JString (u16 "Conversion failed: " ++ message))]) 500),
         calls ++ [videoFile])
      end
  end.
Proof.
  intros Hform. unfold Worker2.handleVideoConversionWith. unfold_monad. rewrite Hform.
  destruct (assocGet form (u16 "video")) as [[[|c s]|videoFile]|]; [done..| |done].
  destruct (negb _); [done|].
  destruct (Worker2.maxSize <? _); [done|].
  by destruct (convert videoFile) as [buf|e].
Qed.

(** The routers hand a POST to /api/convert over to the convert handlers. *)
Lemma fetchWith_convert now page convert request :
  method request = u16 "POST" →
  pathname request = u16 "/api/convert" →
  Worker.fetchWith now page convert request = Worker.handleConversionWith now convert request.
Proof. intros Hmethod Hpath. unfold Worker.fetchWith. by rewrite Hmethod, Hpath. Qed.

Lemma handleRequestWith_convert now page convert request :
  method request = u16 "POST" →
  pathname request = u16 "/api/convert" →
  Worker2.handleRequestWith now page convert request
  = Worker2.handleVideoConversionWith convert request.
Proof. intros Hmethod Hpath. unfold Worker2.handleRequestWith. by rewrite Hmethod, Hpath. Qed.

(** ** Sample values *)

Lemma upload_isUpload (f : File.t) :
  Spec.isUpload (Samples.upload f) [(u16 "video", FormFile f)].
Proof.
  split; [|done]. exists (u16 "multipart/form-data; boundary=x"). by vm_compute.
Qed.

Lemma oversized_size : File.size Samples.oversized = 52428801.
Proof.
  unfold File.size. change (File.bytes Samples.oversized) with (replicate (N.to_nat 52428801) x00).
  by rewrite length_replicate, N2Nat.id.
Qed.

(** ** The type check *)

Ltac differ H := cbn [fst] in H; discriminate H.

(** C1, as stated, fails in src/worker.js: video/wmv is on the canonical MIME
    list, yet an upload declaring it under a name without extension is
    answered 400, Invalid video file type. *)
Lemma type_check_canonical_counterexample :
  let upload := Samples.wmvNoExtension in
  ¬ (fst (Worker.handleConversion Samples.now (Samples.upload upload) [])
       = Ok (Worker.createErrorResponse Samples.now (u16 "Invalid video file type") 400)
     ↔ (File.type upload ∉ Spec.canonicalMimeTypes)
       ∧ Spec.extensionAllowed (File.name upload) = false).
Proof.
  intros upload [Hrejected _].
  destruct Hrejected as [Hnot _]; [by vm_compute|].
  apply Hnot. by apply (bool_decide_unpack _).
Qed.

(** C1 (amended): for an upload that carries a file whose name lower-casing
    does not lengthen, src/worker.js answers 400, Invalid video file type,
    exactly when the declared type is off its five-type list and the
    extension is off the extension list; the second worker answers 400 with
    its invalid-type message exactly when the declared type is off its
    six-type list, whatever the extension. *)
Theorem type_check_by_variant now convert convert2 request form upload calls :
  Spec.isUpload request form →
  assocGet form (u16 "video") = Some (FormFile upload) →
  Spec.lengthStable (File.name upload) →
  (fst (Worker.handleConversionWith now convert request calls)
     = Ok (Worker.createErrorResponse now (u16 "Invalid video file type") 400)
   ↔ (File.type upload ∉ Worker.allowedTypes)
     ∧ Spec.extensionAllowed (File.name upload) = false)
  ∧ (fst (Worker2.handleVideoConversionWith convert2 request calls)
       = Ok (Worker2.createResponse
               (JObject [(u16 "error", JString Worker2.invalidTypeMessage)]) 400)
     ↔ File.type upload ∉ Worker2.allowedTypes).
Proof.
  intros Hupload Hvideo Hstable. split.
  - rewrite (handleConversionWith_upload _ _ _ _ _ Hupload), Hvideo.
    rewrite isVideoFile_extensionAllowed by done. unfold arrayIncludes.
    destruct (decide (File.type upload ∈ Worker.allowedTypes)) as [Hin|Hout].
    + rewrite (bool_decide_eq_true_2 _ Hin). cbn [negb andb].
      split; [|tauto]. intros Heq. exfalso.
      destruct (Worker.maxSize <? _); [differ Heq|].
      destruct (convert upload) as [[buf|]|e]; differ Heq.
    + rewrite (bool_decide_eq_false_2 _ Hout). cbn [negb andb].
      destruct (Spec.extensionAllowed (File.name upload)); cbn [negb].
      * split; [|by intros [_ ?]]. intros Heq. exfalso.
        destruct (Worker.maxSize <? _); [differ Heq|].
        destruct (convert upload) as [[buf|]|e]; differ Heq.
      * done.
  - destruct Hupload as [_ Hform].
    rewrite (handleVideoConversionWith_parsed _ _ _ _ Hform), Hvideo. unfold arrayIncludes.
    destruct (decide (File.type upload ∈ Worker2.allowedTypes)) as [Hin|Hout].
    + rewrite (bool_decide_eq_true_2 _ Hin). cbn [negb].
      split; [|tauto]. intros Heq. exfalso.
      destruct (Worker2.maxSize <? _); [differ Heq|].
      destruct (convert2 upload) as [buf|e]; differ Heq.
    + by rewrite (bool_decide_eq_false_2 _ Hout).
Qed.

Lemma type_check_by_variant_witness :
  let upload := Samples.mp4NoType in
  (fst (Worker.handleConversionWith Samples.now Worker.convertVideoToMp3
          (Samples.upload upload) [])
     = Ok (Worker.createErrorResponse Samples.now (u16 "Invalid video file type") 400)
   ↔ (File.type upload ∉ Worker.allowedTypes)
     ∧ Spec.extensionAllowed (File.name upload) = false)
  ∧ (fst (Worker2.handleVideoConversionWith Worker2.convertVideoToMP3
            (Samples.upload upload) [])
       = Ok (Worker2.createResponse
               (JObject [(u16 "error", JString Worker2.invalidTypeMessage)]) 400)
     ↔ File.type upload ∉ Worker2.allowedTypes).
Proof.
  intros upload.
  apply (type_check_by_variant Samples.now Worker.convertVideoToMp3 Worker2.convertVideoToMP3
           (Samples.upload upload) [(u16 "video", FormFile upload)] upload []).
  - apply upload_isUpload.
  - reflexivity.
  - apply (bool_decide_unpack _). vm_compute. exact I.
Defined.

(** ** Validation gates the transcoder *)

(** X20: whatever the request, the convert handler of src/worker.js does
    not throw, calls the transcoder at most once, and never answers 400 after
    a call. *)
Lemma handleConversionWith_fail_fast now convert request calls :
  ∃ r calls', Worker.handleConversionWith now convert request calls = (Ok r, calls')
              ∧ (calls' = calls ∨ ∃ f, calls' = calls ++ [f] ∧ status r ≠ 400).
Proof.
  unfold Worker.handleConversionWith. unfold_monad.
  destruct (headersGet _ _) as [[|c contentType]|];
    [by do 2 eexists; split; [|left]| |by do 2 eexists; split; [|left]].
  destruct (negb _); [by do 2 eexists; split; [|left]|].
  destruct (formData request) as [form|e]; [|by do 2 eexists; split; [|left]].
  destruct (assocGet form (u16 "video")) as [[s|videoFile]|];
    [by do 2 eexists; split; [|left]| |by do 2 eexists; split; [|left]].
  destruct (negb _ && negb _); [by do 2 eexists; split; [|left]|].
  destruct (Worker.maxSize <? _); [by do 2 eexists; split; [|left]|].
  destruct (convert videoFile) as [[buf|]|e];
    (do 2 eexists; split; [done|]; right; by eexists).
Qed.

(** X21: whatever the request, the convert handler of the second worker
    does not throw, calls the transcoder at most once, and never answers 400
    after a call. *)
Lemma handleVideoConversionWith_fail_fast convert request calls :
  ∃ r calls', Worker2.handleVideoConversionWith convert request calls = (Ok r, calls')
              ∧ (calls' = calls ∨ ∃ f, calls' = calls ++ [f] ∧ status r ≠ 400).
Proof.
  unfold Worker2.handleVideoConversionWith. unfold_monad.
  destruct (formData request) as [form|e]; [|by do 2 eexists; split; [|left]].
  destruct (assocGet form (u16 "video")) as [[[|c s]|videoFile]|];
    [by do 2 eexists; split; [|left]..| |by do 2 eexists; split; [|left]].
  destruct (negb _); [by do 2 eexists; split; [|left]|].
  destruct (Worker2.maxSize <? _); [by do 2 eexists; split; [|left]|].
  destruct (convert videoFile) as [buf|e];
    (do 2 eexists; split; [done|]; right; by eexists).
Qed.

(** A form without a video field is answered 400, No video file provided. *)
Example no_video_field :
  let request :=
    {| method := u16 "POST"; pathname := u16 "/api/convert";
       requestHeaders := Samples.multipart; formData := Ok [] |} in
  Worker.fetch Samples.now Samples.page request []
  = (Ok (Worker.createErrorResponse Samples.now (u16 "No video file provided") 400), [])
  ∧ body (Worker.createErrorResponse Samples.now (u16 "No video file provided") 400)
    = BodyText (u16 "{" ++ [0x22] ++ u16 "error" ++ [0x22] ++ u16 ":true," ++ [0x22]
                ++ u16 "message" ++ [0x22] ++ u16 ":" ++ [0x22]
                ++ u16 "No video file provided" ++ [0x22] ++ u16 "," ++ [0x22]
                ++ u16 "timestamp" ++ [0x22] ++ u16 ":" ++ [0x22] ++ Samples.now
                ++ [0x22] ++ u16 "}").
Proof. by vm_compute. Qed.

(** C2, as stated, fails in the second worker: clip.mp4, ten bytes, no
    declared type, has an allowed extension and is within the size limit, yet
    it is answered 400 and the transcoder is not invoked. *)
Lemma validation_canonical_counterexample :
  let upload := Samples.mp4NoType in
  File.size upload ≤ Spec.maxUploadSize
  ∧ Spec.extensionAllowed (File.name upload) = true
  ∧ Spec.validate Spec.canonicalTypeAllowed (Some (FormFile upload)) = Spec.Accepted upload
  ∧ ¬ (snd (Worker2.handleVideoConversion (Samples.upload upload) []) = [upload]).
Proof. intros upload. split_and!; by vm_compute. Qed.

(** C2 (amended): on an upload, each handler follows the validator run with
    its own type check (src/worker.js: its five MIME types or the extension
    list; the second worker: its six MIME types, no extension fallback). A
    rejected upload is answered 400 and the transcoder is not invoked; an
    accepted one reaches the transcoder exactly once, with the uploaded file,
    and is not answered 400. *)
Theorem validation_gates_transcoder now convert convert2 request form calls :
  Spec.isUpload request form →
  Spec.lengthStableForm form →
  match Spec.validate Spec.workerTypeAllowed (assocGet form (u16 "video")) with
  | Spec.Rejected _ httpStatus =>
    ∃ r, Worker.handleConversionWith now convert request calls = (Ok r, calls)
         ∧ status r = 400 ∧ httpStatus = 400
  | Spec.Accepted upload =>
    ∃ r, Worker.handleConversionWith now convert request calls = (Ok r, calls ++ [upload])
         ∧ status r ≠ 400
  end
  ∧
  match Spec.validate Spec.worker2TypeAllowed (assocGet form (u16 "video")) with
  | Spec.Rejected _ httpStatus =>
    ∃ r, Worker2.handleVideoConversionWith convert2 request calls = (Ok r, calls)
         ∧ status r = 400 ∧ httpStatus = 400
  | Spec.Accepted upload =>
    ∃ r, Worker2.handleVideoConversionWith convert2 request calls = (Ok r, calls ++ [upload])
         ∧ status r ≠ 400
  end.
Proof.
  intros Hupload Hstable. split.
  - rewrite (handleConversionWith_upload _ _ _ _ _ Hupload).
    unfold Spec.validate, Spec.workerTypeAllowed, arrayIncludes.
    destruct (assocGet form (u16 "video")) as [[s|upload]|] eqn:Hvideo;
      [by eexists | | by eexists].
    rewrite isVideoFile_extensionAllowed by (by apply Hstable).
    rewrite negb_orb. destruct (negb _ && negb _); [by eexists|].
    change Worker.maxSize with Spec.maxUploadSize.
    destruct (Spec.maxUploadSize <? _); [by eexists|].
    destruct (convert upload) as [[buf|]|e]; by eexists.
  - destruct Hupload as [_ Hform].
    rewrite (handleVideoConversionWith_parsed _ _ _ _ Hform).
    unfold Spec.validate, Spec.worker2TypeAllowed, arrayIncludes.
    destruct (assocGet form (u16 "video")) as [[[|c s]|upload]|]; [by eexists..| |by eexists].
    destruct (negb _); [by eexists|].
    change Worker2.maxSize with Spec.maxUploadSize.
    destruct (Spec.maxUploadSize <? _); [by eexists|].
    destruct (convert2 upload) as [buf|e]; by eexists.
Qed.

Lemma validation_gates_transcoder_witness :
  let upload := Samples.clipMov in
  (∃ r, Worker.handleConversionWith Samples.now Worker.convertVideoToMp3
          (Samples.upload upload) [] = (Ok r, [] ++ [upload])
        ∧ status r ≠ 400)
  ∧ (∃ r, Worker2.handleVideoConversionWith Worker2.convertVideoToMP3
            (Samples.upload upload) [] = (Ok r, [] ++ [upload])
          ∧ status r ≠ 400).
Proof.
  intros upload.
  apply (validation_gates_transcoder Samples.now Worker.convertVideoToMp3
           Worker2.convertVideoToMP3 (Samples.upload upload)
           [(u16 "video", FormFile upload)] []).
  - apply upload_isUpload.
  - intros f [= <-]. apply (bool_decide_unpack _). vm_compute. exact I.
Defined.

(** ** The size limit *)

(** C3, as stated, fails in the second worker: an upload of 50 MiB and one
    byte that passes the type check is answered 400, but with the message
    File size exceeds 50MB limit; the stated message is nowhere in the body. *)
Lemma oversized_message_counterexample :
  let upload := Samples.oversized in
  Spec.maxUploadSize < File.size upload
  ∧ File.type upload ∈ Worker2.allowedTypes
  ∧ ∃ r text,
      Worker2.handleVideoConversion (Samples.upload upload) [] = (Ok r, [])
      ∧ status r = 400
      ∧ body r = BodyText text
      ∧ includes text (u16 "File too large. Maximum size is 50MB") = false.
Proof.
  intros upload. split_and!.
  - unfold upload. rewrite oversized_size. by vm_compute.
  - by apply (bool_decide_unpack _).
  - unfold Worker2.handleVideoConversion.
    rewrite (handleVideoConversionWith_parsed _ _ [(u16 "video", FormFile upload)]) by done.
    change (assocGet _ _) with (Some (FormFile upload)). cbv iota.
    change (File.type upload) with (u16 "video/mp4").
    change (arrayIncludes _ _) with true. cbn [negb].
    unfold upload. rewrite oversized_size.
    change (Worker2.maxSize <? 52428801) with true. cbv iota.
    do 2 eexists. split_and!; [reflexivity | reflexivity | reflexivity | by vm_compute].
Qed.

(** C3 (amended): an upload whose byte size exceeds 50 * 1024 * 1024 is
    answered 400 by both handlers, whatever its declared type, and the
    transcoder is not invoked. Once the type check has passed the message is
    File too large. Maximum size is 50MB in src/worker.js, and File size
    exceeds 50MB limit in the second worker. *)
Theorem oversized_rejected now convert convert2 request form upload calls :
  Spec.isUpload request form →
  assocGet form (u16 "video") = Some (FormFile upload) →
  Spec.maxUploadSize < File.size upload →
  (∃ r, Worker.handleConversionWith now convert request calls = (Ok r, calls)
        ∧ status r = 400
        ∧ r = if negb (arrayIncludes Worker.allowedTypes (File.type upload))
                 && negb (Worker.isVideoFile (File.name upload))
              then Worker.createErrorResponse now (u16 "Invalid video file type") 400
              else Worker.createErrorResponse now
                     (u16 "File too large. Maximum size is 50MB") 400)
  ∧ (∃ r, Worker2.handleVideoConversionWith convert2 request calls = (Ok r, calls)
          ∧ status r = 400
          ∧ r = if negb (arrayIncludes Worker2.allowedTypes (File.type upload))
                then Worker2.createResponse
                       (JObject [(u16 "error", JString Worker2.invalidTypeMessage)]) 400
                else Worker2.createResponse
                       (JObject [(u16 "error", JString (u16 "File size exceeds 50MB limit"))])
                       400).
Proof.
  intros Hupload Hvideo Hsize.
  assert (Hlt : (Spec.maxUploadSize <? File.size upload) = true) by by apply N.ltb_lt.
  split.
  - rewrite (handleConversionWith_upload _ _ _ _ _ Hupload), Hvideo.
    change Worker.maxSize with Spec.maxUploadSize. rewrite Hlt.
    destruct (negb _ && negb _); by eexists.
  - destruct Hupload as [_ Hform].
    rewrite (handleVideoConversionWith_parsed _ _ _ _ Hform), Hvideo.
    change Worker2.maxSize with Spec.maxUploadSize. rewrite Hlt.
    destruct (negb _); by eexists.
Qed.

Lemma oversized_rejected_witness :
  let upload := Samples.oversized in
  (∃ r, Worker.handleConversionWith Samples.now Worker.convertVideoToMp3
          (Samples.upload upload) [] = (Ok r, [])
        ∧ status r = 400
        ∧ r = if negb (arrayIncludes Worker.allowedTypes (File.type upload))
                 && negb (Worker.isVideoFile (File.name upload))
              then Worker.createErrorResponse Samples.now (u16 "Invalid video file type") 400
              else Worker.createErrorResponse Samples.now
                     (u16 "File too large. Maximum size is 50MB") 400)
  ∧ (∃ r, Worker2.handleVideoConversionWith Worker2.convertVideoToMP3
            (Samples.upload upload) [] = (Ok r, [])
          ∧ status r = 400
          ∧ r = if negb (arrayIncludes Worker2.allowedTypes (File.type upload))
                then Worker2.createResponse
                       (JObject [(u16 "error", JString Worker2.invalidTypeMessage)]) 400
                else Worker2.createResponse
                       (JObject [(u16 "error", JString (u16 "File size exceeds 50MB limit"))])
                       400).
Proof.
  intros upload.
  apply (oversized_rejected Samples.now Worker.convertVideoToMp3 Worker2.convertVideoToMP3
           (Samples.upload upload) [(u16 "video", FormFile upload)] upload []).
  - apply upload_isUpload.
  - reflexivity.
  - unfold upload. rewrite oversized_size. reflexivity.
Defined.

(** ** The success response *)

(** With the transcoder it is written with, the second worker never reaches
    its success response: the transcoder throws on every file, and the
    handler answers 500. *)
Lemma handleVideoConversion_never_succeeds request calls :
  ∃ r calls', Worker2.handleVideoConversion request calls = (Ok r, calls')
              ∧ status r ≠ 200.
Proof.
  unfold Worker2.handleVideoConversion, Worker2.handleVideoConversionWith.
  unfold_monad. destruct (formData request) as [form|e]; [|by do 2 eexists].
  destruct (assocGet form (u16 "video")) as [[[|c s]|videoFile]|]; [by do 2 eexists..| |by do 2 eexists].
  destruct (negb _); [by do 2 eexists|].
  destruct (Worker2.maxSize <? _); by do 2 eexists.
Qed.

(** Reading the digits that [toString] writes gives the number back. *)
Lemma decimalValueFrom_of_uint_acc d acc :
  Spec.decimalValueFrom (Npos acc) (u16 (NilEmpty.string_of_uint d))
  = Some (Npos (Pos.of_uint_acc d acc)).
Proof.
  revert acc. induction d as [|d IHd|d IHd|d IHd|d IHd|d IHd|d IHd|d IHd|d IHd|d IHd|d IHd];
    intros acc; [done|..];
    cbn [Pos.of_uint_acc]; rewrite <- IHd;
    cbn [NilEmpty.string_of_uint u16 list_ascii_of_string fmap list_fmap
         Spec.decimalValueFrom];
    f_equal; try (vm_compute (N_of_ascii _ - 48); lia).
Qed.

Lemma decimalValueFrom_of_uint d :
  Spec.decimalValueFrom 0 (u16 (NilEmpty.string_of_uint d)) = Some (N.of_uint d).
Proof.
  induction d as [|d IHd|d IHd|d IHd|d IHd|d IHd|d IHd|d IHd|d IHd|d IHd|d IHd];
    [done|exact IHd|..]; apply decimalValueFrom_of_uint_acc.
Qed.

Lemma decimalValue_toString n : Spec.decimalValue (toString n) = Some n.
Proof.
  destruct n as [|p]; [done|]. unfold toString. cbn [N.to_uint].
  pose proof (DecimalPos.Unsigned.to_uint_nonnil p) as Hnil.
  transitivity (Some (N.of_uint (Pos.to_uint p)));
    [|f_equal; apply DecimalPos.Unsigned.of_to].
  rewrite <- decimalValueFrom_of_uint.
  by destruct (Pos.to_uint p).
Qed.

Example toString_decimal :
  toString 0 = u16 "0" ∧ toString 4 = u16 "4" ∧ toString 1040 = u16 "1040"
  ∧ Spec.decimalValue (u16 "1040") = Some 1040
  ∧ Spec.decimalValue [] = None
  ∧ Spec.decimalValue (u16 "4 ") = None.
Proof. by vm_compute. Qed.

(** C4, as stated, fails in the second worker. Its handler builds the
    success response from Content-Type, Content-Disposition and the
    cross-origin headers only: when the transcoder returns a buffer, be it a
    stub or the worker's own external-service transcoder, the accepted upload
    clip.MOV is answered 200 with the buffer as body and no Content-Length
    header. *)
Lemma success_content_length_counterexample :
  let upload := Samples.clipMov in
  let service (form : FormData) : Result External.ServiceResponse :=
    Ok {| External.ok := true; External.arrayBuffer := [xff; xfb; x90; x00] |} in
  Spec.worker2Accepts upload
  ∧ (∃ r, Worker2.handleVideoConversionWith Samples.stub2 (Samples.upload upload) []
          = (Ok r, [upload])
          ∧ status r = 200
          ∧ body r = BodyBuffer [xff; xfb; x90; x00]
          ∧ headersGet (headers r) (u16 "Content-Length") = None)
  ∧ (∃ r, Worker2.handleVideoConversionWith (External.convertVideoToMP3External service)
            (Samples.upload upload) [] = (Ok r, [upload])
          ∧ status r = 200
          ∧ body r = BodyBuffer [xff; xfb; x90; x00]
          ∧ headersGet (headers r) (u16 "Content-Length") = None).
Proof.
  intros upload service. split; [split|split].
  - apply (bool_decide_unpack _). vm_compute. exact I.
  - vm_compute. discriminate.
  - eexists. by split_and!.
  - eexists. by split_and!.
Qed.

(** C4 (amended): when a handler accepts an upload and the transcoder returns
    a buffer, the answer has status 200, Content-Type audio/mpeg, a
    Content-Disposition of attachment; filename=<base>.mp3 in double quotes,
    where <base> is the filename with its final extension stripped, and the
    buffer as its body. In src/worker.js it has a Content-Length too: the
    digits [toString] writes, whose decimal value is the byte length of the
    body. In the second worker it has no Content-Length header; and with the
    transcoder that worker is written with, no request is answered 200. *)
Theorem success_response now convert convert2 request form upload calls :
  Spec.isUpload request form →
  assocGet form (u16 "video") = Some (FormFile upload) →
  (∀ mp3Buffer,
     Spec.workerAccepts upload →
     convert upload = Ok (Some mp3Buffer) →
     ∃ r, Worker.handleConversionWith now convert request calls = (Ok r, calls ++ [upload])
          ∧ status r = 200
          ∧ headersGet (headers r) (u16 "Content-Type") = Some (u16 "audio/mpeg")
          ∧ headersGet (headers r) (u16 "Content-Disposition")
            = Some (u16 "attachment; filename=" ++ [0x22]
                    ++ Spec.stripFinalExtension (File.name upload) ++ u16 ".mp3" ++ [0x22])
          ∧ (∃ contentLength,
               headersGet (headers r) (u16 "Content-Length") = Some contentLength
               ∧ contentLength = toString (N.of_nat (length mp3Buffer))
               ∧ Spec.decimalValue contentLength = Some (N.of_nat (length mp3Buffer)))
          ∧ body r = BodyBuffer mp3Buffer)
  ∧ (∀ mp3Buffer,
       Spec.worker2Accepts upload →
       convert2 upload = Ok mp3Buffer →
       ∃ r, Worker2.handleVideoConversionWith convert2 request calls
            = (Ok r, calls ++ [upload])
            ∧ status r = 200
            ∧ headersGet (headers r) (u16 "Content-Type") = Some (u16 "audio/mpeg")
            ∧ headersGet (headers r) (u16 "Content-Disposition")
              = Some (u16 "attachment; filename=" ++ [0x22]
                      ++ Spec.stripFinalExtension (File.name upload) ++ u16 ".mp3" ++ [0x22])
            ∧ headersGet (headers r) (u16 "Content-Length") = None
            ∧ body r = BodyBuffer mp3Buffer)
  ∧ (∃ r calls', Worker2.handleVideoConversion request calls = (Ok r, calls')
                 ∧ status r ≠ 200).
Proof.
  intros Hupload Hvideo. split_and!.
  - intros mp3Buffer [Htype Hsize] Hconvert.
    rewrite (handleConversionWith_upload _ _ _ _ _ Hupload), Hvideo, Hconvert.
    assert (Hcheck : negb (arrayIncludes Worker.allowedTypes (File.type upload))
                     && negb (Worker.isVideoFile (File.name upload)) = false).
    { unfold arrayIncludes. destruct Htype as [Hin| ->].
      - by rewrite (bool_decide_eq_true_2 _ Hin).
      - apply andb_false_r. }
    rewrite Hcheck.
    assert (Hfits : (Worker.maxSize <? File.size upload) = false) by by apply N.ltb_ge.
    rewrite Hfits. eexists. split; [reflexivity|].
    rewrite replaceExtension_stripFinalExtension.
    split_and!; try reflexivity.
    + cbn. by rewrite <- !app_assoc.
    + eexists. split_and!; [reflexivity..|apply decimalValue_toString].
  - intros mp3Buffer [Htype Hsize] Hconvert. destruct Hupload as [_ Hform].
    rewrite (handleVideoConversionWith_parsed _ _ _ _ Hform), Hvideo.
    unfold arrayIncludes. rewrite (bool_decide_eq_true_2 _ Htype). cbn [negb].
    assert (Hfits : (Worker2.maxSize <? File.size upload) = false) by by apply N.ltb_ge.
    rewrite Hfits, Hconvert. eexists. split; [reflexivity|].
    rewrite replaceExtension_stripFinalExtension.
    split_and!; reflexivity.
  - apply handleVideoConversion_never_succeeds.
Qed.

(** The scenario of the specification: clip.MOV, video/mov, ten bytes, and
    transcoders that answer four bytes. *)
Lemma success_response_witness :
  (∃ r, Worker.handleConversionWith Samples.now Samples.stub (Samples.upload Samples.clipMov) []
        = (Ok r, [] ++ [Samples.clipMov])
        ∧ status r = 200
        ∧ headersGet (headers r) (u16 "Content-Type") = Some (u16 "audio/mpeg")
        ∧ headersGet (headers r) (u16 "Content-Disposition")
          = Some (u16 "attachment; filename=" ++ [0x22]
                  ++ Spec.stripFinalExtension (File.name Samples.clipMov)
                  ++ u16 ".mp3" ++ [0x22])
        ∧ (∃ contentLength,
             headersGet (headers r) (u16 "Content-Length") = Some contentLength
             ∧ contentLength = toString (N.of_nat (length [xff; xfb; x90; x00]))
             ∧ Spec.decimalValue contentLength = Some (N.of_nat (length [xff; xfb; x90; x00])))
        ∧ body r = BodyBuffer [xff; xfb; x90; x00])
  ∧ (∃ r, Worker2.handleVideoConversionWith Samples.stub2 (Samples.upload Samples.clipMov) []
          = (Ok r, [] ++ [Samples.clipMov])
          ∧ status r = 200
          ∧ headersGet (headers r) (u16 "Content-Type") = Some (u16 "audio/mpeg")
          ∧ headersGet (headers r) (u16 "Content-Disposition")
            = Some (u16 "attachment; filename=" ++ [0x22]
                    ++ Spec.stripFinalExtension (File.name Samples.clipMov)
                    ++ u16 ".mp3" ++ [0x22])
          ∧ headersGet (headers r) (u16 "Content-Length") = None
          ∧ body r = BodyBuffer [xff; xfb; x90; x00])
  ∧ (∃ r calls', Worker2.handleVideoConversion (Samples.upload Samples.clipMov) []
                 = (Ok r, calls')
                 ∧ status r ≠ 200).
Proof.
  destruct (success_response Samples.now Samples.stub Samples.stub2
              (Samples.upload Samples.clipMov)
              [(u16 "video", FormFile Samples.clipMov)] Samples.clipMov [])
    as (Hworker & Hworker2 & Hown).
  - apply upload_isUpload.
  - reflexivity.
  - split_and!.
    + apply (Hworker [xff; xfb; x90; x00]); [|reflexivity]. split.
      * left. apply (bool_decide_unpack _). vm_compute. exact I.
      * vm_compute. discriminate.
    + apply (Hworker2 [xff; xfb; x90; x00]); [|reflexivity]. split.
      * apply (bool_decide_unpack _). vm_compute. exact I.
      * vm_compute. discriminate.
    + exact Hown.
Defined.

Example clip_mov_disposition :
  u16 "attachment; filename=" ++ [0x22]
  ++ Spec.stripFinalExtension (File.name Samples.clipMov) ++ u16 ".mp3" ++ [0x22]
  = u16 "attachment; filename=" ++ [0x22] ++ u16 "clip.mp3" ++ [0x22]
  ∧ toString (N.of_nat (length [xff; xfb; x90; x00])) = u16 "4".
Proof. by vm_compute. Qed.

(** ** The placeholder transcoder *)

(** C9: the conversion of src/worker.js does not look at its input. It
    returns the same 1040 bytes for every buffer: ff fb 90 00, then zeros. *)
Theorem placeholder_is_constant (videoBuffer videoBuffer' : list byte) :
  Worker.simpleVideoToMp3Conversion videoBuffer
  = Worker.simpleVideoToMp3Conversion videoBuffer'
  ∧ ∃ mp3,
      Worker.simpleVideoToMp3Conversion videoBuffer = Ok mp3
      ∧ length mp3 = 1040%nat
      ∧ mp3 = [xff; xfb; x90; x00] ++ replicate 1036 x00.
Proof.
  split; [reflexivity|]. eexists. split; [by vm_compute|]. by vm_compute.
Qed.

(** The same through [convertVideoToMp3], for any two uploaded files. *)
Lemma convertVideoToMp3_constant (videoFile videoFile' : File.t) :
  Worker.convertVideoToMp3 videoFile = Worker.convertVideoToMp3 videoFile'
  ∧ Worker.convertVideoToMp3 videoFile
    = Ok (Some ([xff; xfb; x90; x00] ++ replicate 1036 x00)).
Proof. split; [reflexivity | by vm_compute]. Qed.

(** ** Cross-origin headers *)

(** Every answer of the convert handlers carries the header, and the
    handlers never throw. *)
Lemma handleConversionWith_cors now convert request calls :
  ∃ r calls', Worker.handleConversionWith now convert request calls = (Ok r, calls')
              ∧ Spec.allowsAnyOrigin r = true.
Proof.
  unfold Worker.handleConversionWith. unfold_monad.
  destruct (headersGet _ _) as [[|c contentType]|]; [by do 2 eexists| |by do 2 eexists].
  destruct (negb _); [by do 2 eexists|].
  destruct (formData request) as [form|e]; [|by do 2 eexists].
  destruct (assocGet form (u16 "video")) as [[s|videoFile]|];
    [by do 2 eexists| |by do 2 eexists].
  destruct (negb _ && negb _); [by do 2 eexists|].
  destruct (Worker.maxSize <? _); [by do 2 eexists|].
  destruct (convert videoFile) as [[buf|]|e]; by do 2 eexists.
Qed.

Lemma handleVideoConversionWith_cors convert request calls :
  ∃ r calls', Worker2.handleVideoConversionWith convert request calls = (Ok r, calls')
              ∧ Spec.allowsAnyOrigin r = true.
Proof.
  unfold Worker2.handleVideoConversionWith. unfold_monad.
  destruct (formData request) as [form|e]; [|by do 2 eexists].
  destruct (assocGet form (u16 "video")) as [[[|c s]|videoFile]|];
    [by do 2 eexists..| |by do 2 eexists].
  destruct (negb _); [by do 2 eexists|].
  destruct (Worker2.maxSize <? _); [by do 2 eexists|].
  destruct (convert videoFile) as [buf|e]; by do 2 eexists.
Qed.

(** C5, as stated, fails in src/worker.js: the answer to GET /missing is
    404 Not Found, without Access-Control-Allow-Origin. *)
Lemma cors_everywhere_counterexample :
  ∃ r, Worker.fetch Samples.now Samples.page (Samples.get "/missing") [] = (Ok r, [])
       ∧ status r = 404
       ∧ headersGet (headers r) (u16 "Access-Control-Allow-Origin") = None.
Proof. eexists. split_and!; reflexivity. Qed.

(** C5 (amended): for every request, whatever its path and method, neither
    worker throws, and its answer carries Access-Control-Allow-Origin: *
    exactly when the request is a preflight, a POST to /api/convert or a GET
    of /api/status, with every success and error answer of those handlers;
    the HTML page of GET / and the 404 answer carry no cross-origin header:
    their only header is the content type. *)
Theorem cors_on_api_routes now page convert convert2 request calls :
  (∃ r calls', Worker.fetchWith now page convert request calls = (Ok r, calls')
               ∧ Spec.allowsAnyOrigin r = Spec.isApiRoute request
               ∧ (Spec.isApiRoute request = false →
                  ∀ name value, (name, value) ∈ headers r →
                                toLowerCase name = u16 "content-type"))
  ∧ (∃ r calls', Worker2.handleRequestWith now page convert2 request calls = (Ok r, calls')
                 ∧ Spec.allowsAnyOrigin r = Spec.isApiRoute request
                 ∧ (Spec.isApiRoute request = false →
                    ∀ name value, (name, value) ∈ headers r →
                                  toLowerCase name = u16 "content-type")).
Proof.
  unfold Worker.fetchWith, Worker2.handleRequestWith, Spec.isApiRoute.
  destruct (bool_decide (method request = u16 "OPTIONS")); [split; by do 2 eexists|].
  cbn [orb].
  destruct (bool_decide (pathname request = u16 "/api/convert")
            && bool_decide (method request = u16 "POST")) eqn:Hconvert.
  { cbn [orb]. split.
    - destruct (handleConversionWith_cors now convert request calls) as (r & calls' & -> & Hcors).
      by exists r, calls'.
    - destruct (handleVideoConversionWith_cors convert2 request calls)
        as (r & calls' & -> & Hcors).
      by exists r, calls'. }
  cbn [orb].
  destruct (bool_decide (pathname request = u16 "/api/status")
            && bool_decide (method request = u16 "GET")); [split; by do 2 eexists|].
  destruct (bool_decide (pathname request = u16 "/") && _); split; do 2 eexists;
    (split_and!; [reflexivity..|]); intros _ name value Hin;
    set (hs := headers _) in Hin; vm_compute in hs; subst hs;
    rewrite list_elem_of_singleton in Hin; by injection Hin as -> _.
Qed.

(** ** The preflight *)

(** C8, as stated, fails in the second worker: its preflight answer has no
    Access-Control-Max-Age header. *)
Lemma preflight_max_age_counterexample :
  ∃ r, Worker2.handleRequest Samples.now Samples.page (Samples.options "/api/convert") []
       = (Ok r, [])
       ∧ status r = 200
       ∧ headersGet (headers r) (u16 "Access-Control-Max-Age") = None.
Proof. eexists. split_and!; reflexivity. Qed.

(** C8 (amended): a request with method OPTIONS is answered before any path
    is matched, whatever the path: status 200, no body, the transcoder not
    invoked, with the allowed origin, the allowed methods and the allowed
    headers. src/worker.js adds Access-Control-Max-Age: 86400; the second
    worker sends no max age. *)
Theorem preflight_short_circuits now page convert convert2 request calls :
  method request = u16 "OPTIONS" →
  (∃ r, Worker.fetchWith now page convert request calls = (Ok r, calls)
        ∧ status r = 200 ∧ body r = BodyNull
        ∧ headersGet (headers r) (u16 "Access-Control-Allow-Origin") = Some (u16 "*")
        ∧ headersGet (headers r) (u16 "Access-Control-Allow-Methods")
          = Some (u16 "GET, POST, OPTIONS")
        ∧ headersGet (headers r) (u16 "Access-Control-Allow-Headers")
          = Some (u16 "Content-Type, Authorization")
        ∧ headersGet (headers r) (u16 "Access-Control-Max-Age") = Some (u16 "86400"))
  ∧ (∃ r, Worker2.handleRequestWith now page convert2 request calls = (Ok r, calls)
          ∧ status r = 200 ∧ body r = BodyNull
          ∧ headersGet (headers r) (u16 "Access-Control-Allow-Origin") = Some (u16 "*")
          ∧ headersGet (headers r) (u16 "Access-Control-Allow-Methods")
            = Some (u16 "POST, GET, OPTIONS")
          ∧ headersGet (headers r) (u16 "Access-Control-Allow-Headers")
            = Some (u16 "Content-Type")
          ∧ headersGet (headers r) (u16 "Access-Control-Max-Age") = None).
Proof.
  intros Hmethod. unfold Worker.fetchWith, Worker2.handleRequestWith.
  rewrite (bool_decide_eq_true_2 _ Hmethod).
  split; eexists; split_and!; reflexivity.
Qed.

Lemma preflight_short_circuits_witness :
  let request := Samples.options "/api/convert" in
  (∃ r, Worker.fetchWith Samples.now Samples.page Worker.convertVideoToMp3 request []
        = (Ok r, [])
        ∧ status r = 200 ∧ body r = BodyNull
        ∧ headersGet (headers r) (u16 "Access-Control-Allow-Origin") = Some (u16 "*")
        ∧ headersGet (headers r) (u16 "Access-Control-Allow-Methods")
          = Some (u16 "GET, POST, OPTIONS")
        ∧ headersGet (headers r) (u16 "Access-Control-Allow-Headers")
          = Some (u16 "Content-Type, Authorization")
        ∧ headersGet (headers r) (u16 "Access-Control-Max-Age") = Some (u16 "86400"))
  ∧ (∃ r, Worker2.handleRequestWith Samples.now Samples.page Worker2.convertVideoToMP3
            request [] = (Ok r, [])
          ∧ status r = 200 ∧ body r = BodyNull
          ∧ headersGet (headers r) (u16 "Access-Control-Allow-Origin") = Some (u16 "*")
          ∧ headersGet (headers r) (u16 "Access-Control-Allow-Methods")
            = Some (u16 "POST, GET, OPTIONS")
          ∧ headersGet (headers r) (u16 "Access-Control-Allow-Headers")
            = Some (u16 "Content-Type")
          ∧ headersGet (headers r) (u16 "Access-Control-Max-Age") = None).
Proof.
  intros request.
  apply (preflight_short_circuits Samples.now Samples.page Worker.convertVideoToMp3
           Worker2.convertVideoToMP3 request []).
  reflexivity.
Defined.

(** ** The status endpoint *)

(** C6, as stated, fails in src/worker.js: the status payload lists five
    formats, not the seven of the canonical extension list. *)
Lemma status_formats_counterexample :
  ∃ r payload limits formats,
    Worker.fetch Samples.now Samples.page (Samples.get "/api/status") [] = (Ok r, [])
    ∧ body r = BodyText (JSON_stringify payload)
    ∧ jsonGet payload (u16 "limits") = Some limits
    ∧ jsonGet limits (u16 "supportedFormats") = Some (JArray formats)
    ∧ length formats = 5%nat
    ∧ formats ≠ Spec.canonicalFormats.
Proof. do 4 eexists. split_and!; [reflexivity..|discriminate]. Qed.

(** C6 (amended): a GET of /api/status is answered 200 with a JSON body that
    is a function of the timestamp alone, and the transcoder is not invoked.
    In src/worker.js limits.supportedFormats is mp4, avi, mov, mkv, webm and
    limits.maxFileSize is 50MB; in the second worker supported_formats is
    mp4, avi, mov, wmv, flv, webm and max_file_size is 50MB: each variant
    reports the formats of its own MIME list. *)
Theorem status_payload :
  ∃ payload payload2 : jsstring → json,
  ∀ now page convert convert2 request calls,
    method request = u16 "GET" →
    pathname request = u16 "/api/status" →
    (∃ r limits,
       Worker.fetchWith now page convert request calls = (Ok r, calls)
       ∧ status r = 200
       ∧ body r = BodyText (JSON_stringify (payload now))
       ∧ jsonGet (payload now) (u16 "limits") = Some limits
       ∧ jsonGet limits (u16 "supportedFormats")
         = Some (JArray [JString (u16 "mp4"); JString (u16 "avi"); JString (u16 "mov");
                         JString (u16 "mkv"); JString (u16 "webm")])
       ∧ jsonGet limits (u16 "maxFileSize") = Some (JString (u16 "50MB")))
    ∧ (∃ r,
         Worker2.handleRequestWith now page convert2 request calls = (Ok r, calls)
         ∧ status r = 200
         ∧ body r = BodyText (JSON_stringify (payload2 now))
         ∧ jsonGet (payload2 now) (u16 "supported_formats")
           = Some (JArray [JString (u16 "mp4"); JString (u16 "avi"); JString (u16 "mov");
                           JString (u16 "wmv"); JString (u16 "flv"); JString (u16 "webm")])
         ∧ jsonGet (payload2 now) (u16 "max_file_size") = Some (JString (u16 "50MB"))).
Proof.
  exists (λ now, JObject
    [(u16 "status", JString (u16 "operational"));
     (u16 "service", JString (u16 "Video to MP3 Converter"));
     (u16 "version", JString (u16 "1.0.0"));
     (u16 "timestamp", JString now);
     (u16 "limits", JObject
        [(u16 "maxFileSize", JString (u16 "50MB"));
         (u16 "supportedFormats",
          JArray [JString (u16 "mp4"); JString (u16 "avi"); JString (u16 "mov");
                  JString (u16 "mkv"); JString (u16 "webm")])])]).
  exists (λ now, JObject
    [(u16 "status", JString (u16 "online"));
     (u16 "timestamp", JString now);
     (u16 "supported_formats",
      JArray [JString (u16 "mp4"); JString (u16 "avi"); JString (u16 "mov");
              JString (u16 "wmv"); JString (u16 "flv"); JString (u16 "webm")]);
     (u16 "max_file_size", JString (u16 "50MB"))]).
  intros now page convert convert2 request calls Hmethod Hpath.
  unfold Worker.fetchWith, Worker2.handleRequestWith. rewrite Hmethod, Hpath.
  split.
  - do 2 eexists. split_and!; reflexivity.
  - eexists. split_and!; reflexivity.
Qed.

Lemma status_payload_witness :
  ∃ r payload limits,
    Worker.fetchWith Samples.now Samples.page Worker.convertVideoToMp3
      (Samples.get "/api/status") [] = (Ok r, [])
    ∧ status r = 200
    ∧ body r = BodyText (JSON_stringify payload)
    ∧ jsonGet payload (u16 "limits") = Some limits
    ∧ jsonGet limits (u16 "maxFileSize") = Some (JString (u16 "50MB")).
Proof.
  destruct status_payload as (payload & payload2 & Hstatus).
  destruct (Hstatus Samples.now Samples.page Worker.convertVideoToMp3
              Worker2.convertVideoToMP3 (Samples.get "/api/status") []
              eq_refl eq_refl) as [(r & limits & Hrun & Hok & Hbody & Hlimits & _ & Hmax) _].
  exists r, (payload Samples.now), limits. by split_and!.
Defined.

(** The body that a client reads, for one timestamp. *)
Example status_body_text :
  ∃ r, Worker.fetch Samples.now Samples.page (Samples.get "/api/status") [] = (Ok r, [])
       ∧ body r = BodyText
           (u16 "{" ++ [0x22] ++ u16 "status" ++ [0x22] ++ u16 ":" ++ [0x22]
            ++ u16 "operational" ++ [0x22] ++ u16 "," ++ [0x22] ++ u16 "service" ++ [0x22]
            ++ u16 ":" ++ [0x22] ++ u16 "Video to MP3 Converter" ++ [0x22] ++ u16 ","
            ++ [0x22] ++ u16 "version" ++ [0x22] ++ u16 ":" ++ [0x22] ++ u16 "1.0.0" ++ [0x22]
            ++ u16 "," ++ [0x22] ++ u16 "timestamp" ++ [0x22] ++ u16 ":" ++ [0x22]
            ++ Samples.now ++ [0x22] ++ u16 "," ++ [0x22] ++ u16 "limits" ++ [0x22]
            ++ u16 ":{" ++ [0x22] ++ u16 "maxFileSize" ++ [0x22] ++ u16 ":" ++ [0x22]
            ++ u16 "50MB" ++ [0x22] ++ u16 "," ++ [0x22] ++ u16 "supportedFormats" ++ [0x22]
            ++ u16 ":[" ++ [0x22] ++ u16 "mp4" ++ [0x22] ++ u16 "," ++ [0x22] ++ u16 "avi"
            ++ [0x22] ++ u16 "," ++ [0x22] ++ u16 "mov" ++ [0x22] ++ u16 "," ++ [0x22]
            ++ u16 "mkv" ++ [0x22] ++ u16 "," ++ [0x22] ++ u16 "webm" ++ [0x22] ++ u16 "]}}").
Proof. eexists. split; [reflexivity | by vm_compute]. Qed.

(** ** Temporary files of the Express handler *)

(** After an [error] event nothing is unlinked: the upload stays on disk. *)
Lemma convert_error_keeps_input inputPath uuid partialOutput download w :
  inputPath ∈ Express.files w →
  inputPath ∈ Express.files
    (Express.worldOf (Express.convert (Some inputPath) uuid
                        (Express.FfmpegError partialOutput) download w)).
Proof. intros Hin. simpl. destruct partialOutput; set_solver. Qed.

(** When [res.download] throws before it calls back, the MP3 stays on disk. *)
Lemma convert_download_throws_keeps_output inputPath uuid w :
  inputPath ∈ Express.files w →
  inputPath ≠ ("output/" +:+ uuid +:+ ".mp3")%string →
  ("output/" +:+ uuid +:+ ".mp3")%string ∈ Express.files
    (Express.worldOf (Express.convert (Some inputPath) uuid Express.FfmpegEnd
                        Express.DownloadThrows w)).
Proof.
  intros Hin Hne. unfold Express.convert, Express.unlinkSync. cbn [Express.files].
  rewrite bool_decide_eq_true_2 by set_solver. cbn [Express.worldOf Express.files].
  set_solver.
Qed.

(** X15: on the path where ffmpeg ends and the download calls back, both
    the upload and the MP3 are unlinked. *)
Lemma convert_success_cleans inputPath uuid w :
  inputPath ∈ Express.files w →
  inputPath ≠ ("output/" +:+ uuid +:+ ".mp3")%string →
  let w' := Express.worldOf (Express.convert (Some inputPath) uuid Express.FfmpegEnd
                               Express.DownloadCallsBack w) in
  (inputPath ∉ Express.files w') ∧ (("output/" +:+ uuid +:+ ".mp3")%string ∉ Express.files w').
Proof.
  intros Hin Hne. unfold Express.convert, Express.unlinkSync. cbn [Express.files].
  rewrite bool_decide_eq_true_2 by set_solver. cbn [Express.files].
  rewrite bool_decide_eq_true_2 by set_solver. cbn [Express.worldOf Express.files].
  rewrite !elem_of_difference, !elem_of_singleton. tauto.
Qed.

(** C7 fails in the code: with the upload at uploads/3f2a, an [error] event
    of ffmpeg leaves the upload on disk, and a download that throws leaves
    output/9b1d.mp3 on disk. *)
Theorem temporary_files_survive :
  Samples.inputPath ∈ Express.files
    (Express.worldOf (Express.convert (Some Samples.inputPath) Samples.uuid
                        (Express.FfmpegError false) Express.DownloadCallsBack Samples.disk))
  ∧ Samples.outputPath ∈ Express.files
      (Express.worldOf (Express.convert (Some Samples.inputPath) Samples.uuid
                          Express.FfmpegEnd Express.DownloadThrows Samples.disk)).
Proof.
  split.
  - apply convert_error_keeps_input. set_solver.
  - apply convert_download_throws_keeps_output; [set_solver | done].
Qed.

(** ** The extension check and the case of the name *)

(** C10 fails in the code on a name that lower-casing lengthens: the index
    of the last dot is taken in the name as given and applied to the
    lower-cased name. The upload named with U+0130 followed by stanbul.mp4 is
    not taken for a video, its lower-cased name is, and its extension is on
    the list. *)
Theorem isVideoFile_case_sensitive_on_dotted_I :
  Worker.isVideoFile Samples.istanbul = false
  ∧ Worker.isVideoFile (toLowerCase Samples.istanbul) = true
  ∧ Spec.extensionAllowed Samples.istanbul = true.
Proof. by vm_compute. Qed.

(** The rest of C10 holds: CLIP.MP4 passes the type check under any declared
    type. *)
Example clip_upper_case_passes :
  Worker.isVideoFile (u16 "CLIP.MP4") = true
  ∧ ∀ declared, negb (arrayIncludes Worker.allowedTypes declared)
                && negb (Worker.isVideoFile (u16 "CLIP.MP4")) = false.
Proof. split; [by vm_compute|]. intros declared. apply andb_false_r. Qed.

(** * Further properties *)

(** ** JSON strings survive the round trip *)

Lemma readUnits_raw (c : N) (t : jsstring) :
  c ≠ 0x22 → c ≠ 0x5C → 0x20 ≤ c →
  JSONParse.readUnits (c :: t) = JSONParse.consUnit c (JSONParse.readUnits t).
Proof.
  intros H1 H2 H3. cbn [JSONParse.readUnits].
  rewrite (proj2 (N.eqb_neq _ _) H1), (proj2 (N.eqb_neq _ _) H2).
  by rewrite (proj2 (N.ltb_ge _ _) H3).
Qed.

Lemma hexValue_hexDigit (d : N) : d < 16 → JSONParse.hexValue (hexDigit d) = Some d.
Proof.
  intros Hd. unfold hexDigit, JSONParse.hexValue.
  destruct (N.ltb_spec d 10).
  - rewrite (proj2 (N.leb_le _ _)), (proj2 (N.leb_le _ _)) by lia. cbn [andb]. f_equal. lia.
  - rewrite (proj2 (N.leb_le 0x30 _)), (proj2 (N.leb_gt _ 0x39)) by lia. cbn [andb].
    rewrite (proj2 (N.leb_le 0x61 _)), (proj2 (N.leb_le _ 0x66)) by lia. cbn [andb].
    f_equal. lia.
Qed.

Lemma readUnits_unicodeEscape (c : N) (t : jsstring) :
  c < 65536 →
  JSONParse.readUnits (unicodeEscape c ++ t) = JSONParse.consUnit c (JSONParse.readUnits t).
Proof.
  intros Hc. unfold unicodeEscape. cbn [app JSONParse.readUnits].
  change (0x5C =? 0x22) with false. change (0x5C =? 0x5C) with true.
  change (0x75 =? 0x75) with true. cbv iota. unfold JSONParse.hex4.
  assert (Hq : c / 4096 < 16) by (apply N.Div0.div_lt_upper_bound; lia).
  rewrite !hexValue_hexDigit by (try done; apply N.mod_lt; lia).
  cbn [mbind option_bind].
  replace (4096 * (c / 4096 mod 16) + 256 * (c / 256 mod 16) + 16 * (c / 16 mod 16) + c mod 16)
    with c; [done|].
  replace (c / 4096) with (c / 16 / 16 / 16) in * by (by rewrite !N.Div0.div_div).
  replace (c / 256) with (c / 16 / 16) by (by rewrite !N.Div0.div_div).
  rewrite (N.mod_small (c / 16 / 16 / 16)) by done.
  pose proof (N.div_mod c 16 ltac:(lia)) as H16.
  pose proof (N.div_mod (c / 16) 16 ltac:(lia)) as H256.
  pose proof (N.div_mod (c / 16 / 16) 16 ltac:(lia)) as H4096.
  lia.
Qed.

Lemma readUnits_quoteUnits (s rest : jsstring) :
  JSONParse.readUnits (quoteUnits s ++ 0x22 :: rest) = Some (s, rest).
Proof.
  remember (length s) as n eqn:Hn. revert s Hn.
  induction (lt_wf n) as [n _ IH]. intros s Hn.
  destruct s as [|c t]; [done|].
  assert (IHt : JSONParse.readUnits (quoteUnits t ++ 0x22 :: rest) = Some (t, rest)).
  { apply (IH (length t)); [simpl in Hn; lia | done]. }
  cbn [quoteUnits].
  destruct (N.eqb_spec c 0x08) as [->|?]; [by cbn; rewrite IHt|].
  destruct (N.eqb_spec c 0x09) as [->|?]; [by cbn; rewrite IHt|].
  destruct (N.eqb_spec c 0x0A) as [->|?]; [by cbn; rewrite IHt|].
  destruct (N.eqb_spec c 0x0C) as [->|?]; [by cbn; rewrite IHt|].
  destruct (N.eqb_spec c 0x0D) as [->|?]; [by cbn; rewrite IHt|].
  destruct (N.eqb_spec c 0x22) as [->|?]; [by cbn; rewrite IHt|].
  destruct (N.eqb_spec c 0x5C) as [->|?]; [by cbn; rewrite IHt|].
  destruct (N.ltb_spec c 0x20) as [?|?].
  { rewrite <- app_assoc, readUnits_unicodeEscape by lia. by rewrite IHt. }
  unfold isLeadSurrogate, isTrailSurrogate.
  destruct (N.leb_spec 0xD800 c); destruct (N.leb_spec c 0xDBFF); cbn [andb].
  - destruct t as [|d t'].
    + rewrite readUnits_unicodeEscape by lia. done.
    + destruct (N.leb_spec 0xDC00 d); destruct (N.leb_spec d 0xDFFF); cbn [andb].
      * cbn [app]. rewrite (readUnits_raw c), (readUnits_raw d) by lia.
        rewrite (IH (length t')); [done | simpl in Hn; lia | done].
      * rewrite <- app_assoc, readUnits_unicodeEscape by lia. by rewrite IHt.
      * rewrite <- app_assoc, readUnits_unicodeEscape by lia. by rewrite IHt.
      * rewrite <- app_assoc, readUnits_unicodeEscape by lia. by rewrite IHt.
  - destruct (N.leb_spec 0xDC00 c); destruct (N.leb_spec c 0xDFFF); cbn [andb].
    + rewrite <- app_assoc, readUnits_unicodeEscape by lia. by rewrite IHt.
    + cbn [app]. rewrite readUnits_raw by lia. by rewrite IHt.
    + cbn [app]. rewrite readUnits_raw by lia. by rewrite IHt.
    + cbn [app]. rewrite readUnits_raw by lia. by rewrite IHt.
  - rewrite (proj2 (N.leb_gt 0xDC00 c)) by lia. cbn [andb app].
    rewrite readUnits_raw by lia. by rewrite IHt.
  - lia.
Qed.

(** X1: a string that [JSON.stringify] quoted reads back as itself, and the
    reader stops at its closing quote: no text inside a message can end the
    string early, whatever follows it in the body. *)
Theorem readJSONString_quoteJSONString (s rest : jsstring) :
  JSONParse.readJSONString (quoteJSONString s ++ rest) = Some (s, rest).
Proof.
  unfold quoteJSONString, JSONParse.readJSONString. cbn [app].
  change (0x22 =? 0x22) with true. cbv iota.
  rewrite <- app_assoc. apply readUnits_quoteUnits.
Qed.

(** X22: the error text of an answer of the second worker reads back from
    its body as the text given to [createResponse], whatever it holds:
    quotes, backslashes, control characters. After the opening of the object
    and the key, the reader returns the text and stops at the closing
    brace. *)
Theorem error_text_reads_back (message : jsstring) (status : N) :
  ∃ quoted,
    body (Worker2.createResponse (JObject [(u16 "error", JString message)]) status)
    = BodyText (u16 "{" ++ quoteJSONString (u16 "error") ++ u16 ":" ++ quoted)
    ∧ JSONParse.readJSONString quoted = Some (message, u16 "}").
Proof.
  exists (quoteJSONString message ++ u16 "}"). split.
  - cbn [Worker2.createResponse newResponse body JSON_stringify List.map joinComma fst snd].
    reflexivity.
  - unfold quoteJSONString, JSONParse.readJSONString. cbn [app].
    change (0x22 =? 0x22) with true. cbv iota.
    rewrite <- app_assoc. apply readUnits_quoteUnits.
Qed.

(** ** What the regular expression removes *)

(** X2: a name that ends in a dot followed by one or more characters, none
    of them a dot or a slash, loses exactly that ending: the base is kept as
    it is, inner dots and slashes included. *)
Theorem replaceExtension_extension (base ext : jsstring) :
  ext ≠ [] →
  Forall (λ c, c ≠ 0x2F ∧ c ≠ 0x2E) ext →
  Worker.replaceExtension (base ++ 0x2E :: ext) = base.
Proof.
  intros Hne Hext.
  assert (Hall : forallb Worker.notSlashOrDot ext = true).
  { apply forallb_forall. intros c Hc. apply list_elem_of_In in Hc.
    rewrite Forall_forall in Hext. destruct (Hext c Hc) as [H1 H2].
    unfold Worker.notSlashOrDot.
    by rewrite (proj2 (N.eqb_neq _ _) H1), (proj2 (N.eqb_neq _ _) H2). }
  induction base as [|c base IH].
  - cbn [app Worker.replaceExtension]. destruct ext as [|d ext]; [done|].
    cbn [Worker.matchesExtensionAt]. change (0x2E =? 0x2E) with true. by rewrite Hall.
  - cbn [app Worker.replaceExtension]. rewrite IH.
    assert (Hm : Worker.matchesExtensionAt (c :: base ++ 0x2E :: ext) = false);
      [|by rewrite Hm].
    destruct (base ++ 0x2E :: ext) as [|d rest] eqn:Hrest; [done|].
    cbn [Worker.matchesExtensionAt]. rewrite <- Hrest.
    rewrite forallb_app. cbn [forallb]. unfold Worker.notSlashOrDot at 2.
    change (0x2E =? 0x2E) with true. cbn [negb andb].
    by rewrite !andb_false_r.
Qed.

Lemma replaceExtension_extension_witness :
  Worker.replaceExtension (u16 "my.holiday/clip" ++ 0x2E :: u16 "MOV") = u16 "my.holiday/clip".
Proof.
  apply (replaceExtension_extension (u16 "my.holiday/clip") (u16 "MOV")).
  - discriminate.
  - vm_compute. repeat constructor; discriminate.
Defined.

(** X3: whatever the name, the replacement returns a prefix of it, and what
    it cuts off is nothing at all or a dot followed by a non-empty run without
    dot and slash. A name that ends in a dot, that has no dot, or whose last
    dot is followed by a slash, is returned whole. *)
Theorem replaceExtension_cut (filename : jsstring) :
  ∃ cut, filename = Worker.replaceExtension filename ++ cut
         ∧ (cut = []
            ∨ ∃ ext, cut = 0x2E :: ext ∧ ext ≠ []
                     ∧ Forall (λ c, c ≠ 0x2F ∧ c ≠ 0x2E) ext).
Proof.
  induction filename as [|c t IH].
  - exists []. by split; [|left].
  - cbn [Worker.replaceExtension].
    destruct (Worker.matchesExtensionAt (c :: t)) eqn:Hm.
    + exists (c :: t). split; [done|]. right.
      destruct t as [|d t']; [done|]. cbn [Worker.matchesExtensionAt] in Hm.
      apply andb_prop in Hm as [Hc Hall]. apply N.eqb_eq in Hc as ->.
      exists (d :: t'). split_and!; [done..|].
      apply Forall_forall. intros x Hx. apply list_elem_of_In in Hx.
      rewrite forallb_forall in Hall. specialize (Hall x Hx).
      unfold Worker.notSlashOrDot in Hall.
      apply andb_prop in Hall as [H1 H2].
      split; apply N.eqb_neq; by apply negb_true_iff.
    + destruct IH as (cut & Heq & Hcut). exists cut. split; [|done].
      cbn [app]. by rewrite <- Heq.
Qed.

(** ** What [isVideoFile] accepts *)

Lemma finalExtension_app_extension (base t : jsstring) :
  0x2E ∉ t → Spec.finalExtension (base ++ 0x2E :: t) = Some (0x2E :: t).
Proof.
  intros Ht. induction base as [|c base IH].
  - cbn [app Spec.finalExtension]. by rewrite (proj2 (finalExtension_None t) Ht).
  - cbn [app Spec.finalExtension]. by rewrite IH.
Qed.

Lemma lastIndexOf_app_extension (base t : jsstring) :
  0x2E ∉ t → lastIndexOf (base ++ 0x2E :: t) 0x2E = Z.of_nat (length base).
Proof.
  intros Ht. pose proof (lastIndexOf_finalExtension (base ++ 0x2E :: t)) as Hlast.
  rewrite finalExtension_app_extension in Hlast by done.
  destruct Hlast as (b & Heq & ->). by apply app_inv_tail in Heq as ->.
Qed.

Lemma allowed_extension_shape (e : jsstring) :
  e ∈ Worker.videoExtensions → ∃ e', e = 0x2E :: e' ∧ (0x2E ∉ e') ∧ (0x307 ∉ e').
Proof.
  unfold Worker.videoExtensions. rewrite !elem_of_cons, elem_of_nil.
  intros H.
  repeat (destruct H as [->|H];
          [eexists; split; [reflexivity|];
           split; apply (bool_decide_unpack _); vm_compute; exact I|]).
  done.
Qed.

Lemma lowerUnit_nonempty (c : N) : lowerUnit c ≠ [].
Proof. lowerUnit_cases c; done. Qed.

Lemma toLowerCase_dotted_I (s : jsstring) : 0x130 ∈ s → 0x307 ∈ toLowerCase s.
Proof.
  induction s as [|c t IH]; [by intros ?%elem_of_nil|].
  change (toLowerCase (c :: t)) with (lowerUnit c ++ toLowerCase t).
  intros [<-|Hin]%elem_of_cons; rewrite elem_of_app.
  - left. change (lowerUnit 0x130) with [0x69; 0x307]. right. by left.
  - right. by apply IH.
Qed.

(** A lower-cased ending that is on the list comes from a dot and a run
    without dot and without U+0130. *)
Lemma allowed_extension_source (ext : jsstring) :
  toLowerCase ext ∈ Worker.videoExtensions →
  ∃ t, ext = 0x2E :: t ∧ (0x2E ∉ t) ∧ Spec.lengthStable ext.
Proof.
  intros Hin. destruct (allowed_extension_shape _ Hin) as (e' & Heq & Hdot & Hcomb).
  assert (Hstable : Spec.lengthStable ext).
  { intros HI%toLowerCase_dotted_I. rewrite Heq in HI.
    apply elem_of_cons in HI as [?|?]; [done|by apply Hcomb]. }
  destruct ext as [|c t]; [done|]. simpl in Heq.
  assert (Hc : c = 0x2E).
  { apply lowerUnit_dot. destruct (lowerUnit c) as [|x l] eqn:Hl;
      [by apply lowerUnit_nonempty in Hl|].
    simpl in Heq. injection Heq as -> _. by left. }
  subst c. exists t. split; [done|]. split; [|done].
  change (lowerUnit 0x2E) with [0x2E] in Heq. simpl in Heq. injection Heq as Heq.
  intros Ht. apply Hdot. rewrite <- Heq. by apply toLowerCase_dot.
Qed.

(** X4: a name whose ending is, in any mix of upper and lower case, one of
    the seven extensions is taken for a video, whatever precedes the ending,
    as long as no U+0130 does. *)
Theorem isVideoFile_accepts_extension (base ext : jsstring) :
  Spec.lengthStable base →
  toLowerCase ext ∈ Worker.videoExtensions →
  Worker.isVideoFile (base ++ ext) = true.
Proof.
  intros Hbase Hext.
  destruct (allowed_extension_source _ Hext) as (t & -> & Ht & Hstable).
  unfold Worker.isVideoFile, substring, arrayIncludes.
  rewrite lastIndexOf_app_extension by done.
  rewrite Z.max_r, Nat2Z.id by lia.
  rewrite toLowerCase_app, <- (toLowerCase_length base) by done.
  rewrite drop_app_length. by apply bool_decide_eq_true_2.
Qed.

Lemma isVideoFile_accepts_extension_witness :
  Worker.isVideoFile (u16 "Trip.2024/final cut" ++ u16 ".WebM") = true.
Proof.
  apply (isVideoFile_accepts_extension (u16 "Trip.2024/final cut") (u16 ".WebM")).
  - apply (bool_decide_unpack _). vm_compute. exact I.
  - apply (bool_decide_unpack _). vm_compute. exact I.
Defined.

Lemma toLowerCase_length_dotted_I (s : jsstring) :
  0x130 ∈ s → (length s < length (toLowerCase s))%nat.
Proof.
  assert (Hge : ∀ l : jsstring, (length l ≤ length (toLowerCase l))%nat).
  { induction l as [|c l IH]; [done|].
    change (toLowerCase (c :: l)) with (lowerUnit c ++ toLowerCase l).
    rewrite length_app. cbn [length].
    pose proof (lowerUnit_nonempty c). destruct (lowerUnit c); [done|]. simpl. lia. }
  induction s as [|c t IH]; [by intros ?%elem_of_nil|].
  change (toLowerCase (c :: t)) with (lowerUnit c ++ toLowerCase t).
  intros [<-|Hin]%elem_of_cons; rewrite length_app; cbn [length].
  - change (lowerUnit 0x130) with [0x69; 0x307]. specialize (Hge t). simpl. lia.
  - specialize (IH Hin). pose proof (lowerUnit_nonempty c).
    destruct (lowerUnit c); [done|]. simpl. lia.
Qed.

(** X5: a name with a U+0130 anywhere before its last dot is never taken for
    a video, whatever its extension: the cut falls before the dot of the
    lower-cased name, and no listed extension has a dot past its first
    character. *)
Theorem isVideoFile_rejects_dotted_I (base t : jsstring) :
  0x130 ∈ base →
  0x2E ∉ t →
  Worker.isVideoFile (base ++ 0x2E :: t) = false.
Proof.
  intros HI Ht. unfold Worker.isVideoFile, substring, arrayIncludes.
  rewrite lastIndexOf_app_extension by done.
  rewrite Z.max_r, Nat2Z.id by lia.
  rewrite toLowerCase_app.
  pose proof (toLowerCase_length_dotted_I base HI) as Hlen.
  rewrite drop_app_le by lia.
  destruct (drop (length base) (toLowerCase base)) as [|x xs] eqn:Hdrop.
  { apply (f_equal length) in Hdrop. rewrite length_drop in Hdrop. simpl in Hdrop. lia. }
  apply bool_decide_eq_false_2. intros Hin.
  destruct (allowed_extension_shape _ Hin) as (e' & Heq & Hdot & _).
  injection Heq as _ <-. apply Hdot. rewrite elem_of_app. right.
  change (toLowerCase (0x2E :: t)) with (0x2E :: toLowerCase t). by left.
Qed.

Lemma isVideoFile_rejects_dotted_I_witness :
  Worker.isVideoFile ((u16 "D" ++ [0x130] ++ u16 "YARBAKIR") ++ 0x2E :: u16 "mp4") = false.
Proof.
  apply (isVideoFile_rejects_dotted_I (u16 "D" ++ [0x130] ++ u16 "YARBAKIR") (u16 "mp4")).
  - apply (bool_decide_unpack _). vm_compute. exact I.
  - apply (bool_decide_unpack _). vm_compute. exact I.
Defined.

Lemma isVideoFile_toLowerCase_witness :
  Worker.isVideoFile (u16 "Holiday.AVI") = Worker.isVideoFile (toLowerCase (u16 "Holiday.AVI")).
Proof.
  apply (isVideoFile_toLowerCase (u16 "Holiday.AVI")).
  apply (bool_decide_unpack _). vm_compute. exact I.
Defined.

Lemma isVideoFile_no_dot_witness : Worker.isVideoFile (u16 "mp4") = false.
Proof.
  apply (isVideoFile_no_dot (u16 "mp4")).
  apply (bool_decide_unpack _). vm_compute. exact I.
Defined.

(** ** The routers *)

Lemma handleConversionWith_status now convert request calls :
  ∃ r calls', Worker.handleConversionWith now convert request calls = (Ok r, calls')
              ∧ (status r = 200 ∨ status r = 400 ∨ status r = 500).
Proof.
  destruct (handleConversionWith_cors now convert request calls) as (r & calls' & Hrun & _).
  exists r, calls'. split; [done|]. revert Hrun.
  unfold Worker.handleConversionWith. unfold_monad.
  destruct (headersGet _ _) as [[|c contentType]|]; [intros [= <- _]; auto| |intros [= <- _]; auto].
  destruct (negb _); [intros [= <- _]; auto|].
  destruct (formData request) as [form|e]; [|intros [= <- _]; auto].
  destruct (assocGet form (u16 "video")) as [[s|videoFile]|];
    [intros [= <- _]; auto| |intros [= <- _]; auto].
  destruct (negb _ && negb _); [intros [= <- _]; auto|].
  destruct (Worker.maxSize <? _); [intros [= <- _]; auto|].
  destruct (convert videoFile) as [[buf|]|e]; intros [= <- _]; auto.
Qed.

Lemma handleVideoConversionWith_status convert request calls :
  ∃ r calls', Worker2.handleVideoConversionWith convert request calls = (Ok r, calls')
              ∧ (status r = 200 ∨ status r = 400 ∨ status r = 500).
Proof.
  destruct (handleVideoConversionWith_cors convert request calls) as (r & calls' & Hrun & _).
  exists r, calls'. split; [done|]. revert Hrun.
  unfold Worker2.handleVideoConversionWith. unfold_monad.
  destruct (formData request) as [form|e]; [|intros [= <- _]; auto].
  destruct (assocGet form (u16 "video")) as [[[|c s]|videoFile]|];
    [intros [= <- _]; auto..| |intros [= <- _]; auto].
  destruct (negb _); [intros [= <- _]; auto|].
  destruct (Worker2.maxSize <? _); [intros [= <- _]; auto|].
  destruct (convert videoFile) as [buf|e]; intros [= <- _]; auto.
Qed.

(** X6: both routers answer 404 exactly to the requests that match none of
    the four routes (the preflight, POST /api/convert, GET /api/status and
    GET /): the answer is then the text Not Found without further headers.
    Method and path are compared as they are, so GET /api/convert and
    /api/status/ are not found. Only a POST to /api/convert can reach the
    transcoder. *)
Theorem routers_dispatch now page convert convert2 request calls :
  (∃ r calls', Worker.fetchWith now page convert request calls = (Ok r, calls')
     ∧ (if Routes.matchesRoute request then status r ≠ 404
        else r = newResponse (BodyText (u16 "Not Found")) (Some 404) [] ∧ calls' = calls)
     ∧ (calls' ≠ calls →
        method request = u16 "POST" ∧ pathname request = u16 "/api/convert"))
  ∧ (∃ r calls', Worker2.handleRequestWith now page convert2 request calls = (Ok r, calls')
       ∧ (if Routes.matchesRoute request then status r ≠ 404
          else r = newResponse (BodyText (u16 "Not Found")) (Some 404) [] ∧ calls' = calls)
       ∧ (calls' ≠ calls →
          method request = u16 "POST" ∧ pathname request = u16 "/api/convert")).
Proof.
  unfold Worker.fetchWith, Worker2.handleRequestWith, Routes.matchesRoute, Spec.isApiRoute.
  destruct (bool_decide (method request = u16 "OPTIONS")); [split; by do 2 eexists|].
  cbn [orb].
  destruct (bool_decide (pathname request = u16 "/api/convert")) eqn:Hpath;
    [destruct (bool_decide (method request = u16 "POST")) eqn:Hmethod|]; cbn [andb orb].
  - apply bool_decide_eq_true_1 in Hpath, Hmethod. split.
    + destruct (handleConversionWith_status now convert request calls)
        as (r & calls' & -> & Hstatus).
      exists r, calls'. split_and!; [done| |done].
      destruct Hstatus as [->|[->| ->]]; done.
    + destruct (handleVideoConversionWith_status convert2 request calls)
        as (r & calls' & -> & Hstatus).
      exists r, calls'. split_and!; [done| |done].
      destruct Hstatus as [->|[->| ->]]; done.
  - destruct (bool_decide (pathname request = u16 "/api/status") && _);
      [split; by do 2 eexists|].
    destruct (bool_decide (pathname request = u16 "/") && _); split; by do 2 eexists.
  - destruct (bool_decide (pathname request = u16 "/api/status") && _);
      [split; by do 2 eexists|].
    destruct (bool_decide (pathname request = u16 "/") && _); split; by do 2 eexists.
Qed.

(** ** The convert handler of src/worker.js, check by check *)

(** X7: a request whose Content-Type header is missing, empty, or does not
    hold the text multipart/form-data in lower case is answered 400,
    Content-Type must be multipart/form-data; the form is not read and the
    transcoder is not invoked, whatever the form would hold. *)
Theorem content_type_gate now convert request calls :
  (∀ contentType,
     headersGet (requestHeaders request) (u16 "content-type") = Some contentType →
     includes contentType (u16 "multipart/form-data") = false) →
  Worker.handleConversionWith now convert request calls
  = (Ok (Worker.createErrorResponse now (u16 "Content-Type must be multipart/form-data") 400),
     calls).
Proof.
  intros Hheader. unfold Worker.handleConversionWith. unfold_monad.
  destruct (headersGet _ _) as [[|c contentType]|] eqn:Hget; [done| |done].
  by rewrite (Hheader _ eq_refl).
Qed.

Lemma content_type_gate_witness :
  let request :=
    {| method := u16 "POST"; pathname := u16 "/api/convert";
       requestHeaders := [(u16 "Content-Type", u16 "Multipart/Form-Data; boundary=x")];
       formData := Ok [(u16 "video", FormFile Samples.clipMov)] |} in
  Worker.handleConversionWith Samples.now Worker.convertVideoToMp3 request []
  = (Ok (Worker.createErrorResponse Samples.now
           (u16 "Content-Type must be multipart/form-data") 400), []).
Proof.
  intros request.
  apply (content_type_gate Samples.now Worker.convertVideoToMp3 request []).
  intros contentType [= <-]. reflexivity.
Defined.

(** X8: with its own transcoder, the convert handler of src/worker.js
    answers 200 or 400 to every request whose form can be read: the
    placeholder never fails, so Conversion failed is never answered, and
    Internal server error only when reading the form throws. *)
Theorem handleConversion_answers now request calls :
  ∃ r calls', Worker.handleConversion now request calls = (Ok r, calls')
    ∧ (status r = 200 ∨ status r = 400
       ∨ (r = Worker.createErrorResponse now (u16 "Internal server error") 500
          ∧ ∃ message, formData request = Throw message)).
Proof.
  unfold Worker.handleConversion, Worker.handleConversionWith. unfold_monad.
  destruct (headersGet _ _) as [[|c contentType]|]; [do 2 eexists; split; [reflexivity | right; left; reflexivity]|
    |do 2 eexists; split; [reflexivity | right; left; reflexivity]].
  destruct (negb _); [do 2 eexists; split; [reflexivity | right; left; reflexivity]|].
  destruct (formData request) as [form|e].
  - destruct (assocGet form (u16 "video")) as [[s|videoFile]|];
      [do 2 eexists; split; [reflexivity | right; left; reflexivity]| |do 2 eexists; split; [reflexivity | right; left; reflexivity]].
    destruct (negb _ && negb _); [do 2 eexists; split; [reflexivity | right; left; reflexivity]|].
    destruct (Worker.maxSize <? _); [do 2 eexists; split; [reflexivity | right; left; reflexivity]|].
    destruct (convertVideoToMp3_constant videoFile videoFile) as [_ ->].
    do 2 eexists. split; [done|]. by left.
  - do 2 eexists. split; [done|]. right. right. split; [done|]. by exists e.
Qed.

(** X9: when the transcoder fails on an accepted upload, src/worker.js
    answers 500 with a JSON body after one call of the transcoder: the text
    is Conversion failed when the transcoder returns null, and Internal
    server error, whatever the exception says, when it throws. *)
Theorem transcoder_failure now convert request form upload calls :
  Spec.isUpload request form →
  assocGet form (u16 "video") = Some (FormFile upload) →
  Spec.workerAccepts upload →
  (∀ mp3Buffer, convert upload ≠ Ok (Some mp3Buffer)) →
  ∃ text, Worker.handleConversionWith now convert request calls
          = (Ok (Worker.createErrorResponse now text 500), calls ++ [upload])
          ∧ text = match convert upload with
                   | Throw _ => u16 "Internal server error"
                   | _ => u16 "Conversion failed"
                   end.
Proof.
  intros Hupload Hvideo [Htype Hsize] Hfail.
  rewrite (handleConversionWith_upload _ _ _ _ _ Hupload), Hvideo.
  assert (Hcheck : negb (arrayIncludes Worker.allowedTypes (File.type upload))
                   && negb (Worker.isVideoFile (File.name upload)) = false).
  { unfold arrayIncludes. destruct Htype as [Hin| ->].
    - by rewrite (bool_decide_eq_true_2 _ Hin).
    - apply andb_false_r. }
  change Worker.maxSize with Spec.maxUploadSize.
  rewrite Hcheck, (proj2 (N.ltb_ge _ _) Hsize).
  destruct (convert upload) as [[buf|]|e]; [by destruct (Hfail buf)|by eexists..].
Qed.

Lemma transcoder_failure_witness :
  ∃ text, Worker.handleConversionWith Samples.now (λ _, Throw (u16 "out of memory"))
            (Samples.upload Samples.clipMov) []
          = (Ok (Worker.createErrorResponse Samples.now text 500), [] ++ [Samples.clipMov])
          ∧ text = u16 "Internal server error".
Proof.
  apply (transcoder_failure Samples.now (λ _, Throw (u16 "out of memory"))
           (Samples.upload Samples.clipMov) [(u16 "video", FormFile Samples.clipMov)]
           Samples.clipMov []).
  - apply upload_isUpload.
  - reflexivity.
  - split.
    + left. apply (bool_decide_unpack _). vm_compute. exact I.
    + vm_compute. discriminate.
  - discriminate.
Defined.

(** ** The convert handler of the second worker *)

(** X10: the second worker cannot convert anything: every upload that passes
    its type and size checks is handed to the transcoder once and answered
    500, with the failure prefix twice in the message. *)
Theorem unimplemented_transcoder request form upload calls :
  formData request = Ok form →
  assocGet form (u16 "video") = Some (FormFile upload) →
  File.type upload ∈ Worker2.allowedTypes →
  File.size upload ≤ Worker2.maxSize →
  Worker2.handleVideoConversion request calls
  = (Ok (Worker2.createResponse
           (JObject [(u16 "error",
                      JString (u16 "Conversion failed: Conversion failed: Video conversion requires FFmpeg or external service integration"))])
           500),
     calls ++ [upload]).
Proof.
  intros Hform Hvideo Htype Hsize. unfold Worker2.handleVideoConversion.
  rewrite (handleVideoConversionWith_parsed _ _ _ _ Hform), Hvideo.
  unfold arrayIncludes. rewrite (bool_decide_eq_true_2 _ Htype). cbn [negb].
  by rewrite (proj2 (N.ltb_ge _ _) Hsize).
Qed.

Lemma unimplemented_transcoder_witness :
  Worker2.handleVideoConversion (Samples.upload Samples.clipMov) []
  = (Ok (Worker2.createResponse
           (JObject [(u16 "error",
                      JString (u16 "Conversion failed: Conversion failed: Video conversion requires FFmpeg or external service integration"))])
           500),
     [] ++ [Samples.clipMov]).
Proof.
  apply (unimplemented_transcoder (Samples.upload Samples.clipMov)
           [(u16 "video", FormFile Samples.clipMov)] Samples.clipMov []).
  - reflexivity.
  - reflexivity.
  - apply (bool_decide_unpack _). vm_compute. exact I.
  - vm_compute. discriminate.
Defined.

(** X11: the second worker copies the text of a caught exception into the
    body of its 500 answer, be it thrown while the form is read or by the
    transcoder on an accepted upload: the body is the object whose error
    string is Conversion failed: followed by that text. *)
Theorem exception_text_echoed convert2 request message calls :
  formData request = Throw message
  ∨ (∃ form upload,
       formData request = Ok form
       ∧ assocGet form (u16 "video") = Some (FormFile upload)
       ∧ File.type upload ∈ Worker2.allowedTypes
       ∧ File.size upload ≤ Worker2.maxSize
       ∧ convert2 upload = Throw message) →
  ∃ r calls', Worker2.handleVideoConversionWith convert2 request calls = (Ok r, calls')
    ∧ status r = 500
    ∧ body r = BodyText (u16 "{" ++ quoteJSONString (u16 "error") ++ u16 ":"
                         ++ quoteJSONString (u16 "Conversion failed: " ++ message)
                         ++ u16 "}").
Proof.
  intros [Hform|(form & upload & Hform & Hvideo & Htype & Hsize & Hthrow)].
  - unfold Worker2.handleVideoConversionWith. unfold_monad. rewrite Hform.
    do 2 eexists. split_and!; reflexivity.
  - rewrite (handleVideoConversionWith_parsed _ _ _ _ Hform), Hvideo.
    unfold arrayIncludes. rewrite (bool_decide_eq_true_2 _ Htype). cbn [negb].
    rewrite (proj2 (N.ltb_ge _ _) Hsize), Hthrow.
    do 2 eexists. split_and!; reflexivity.
Qed.

Lemma exception_text_echoed_witness :
  ∃ r calls',
    Worker2.handleVideoConversionWith Worker2.convertVideoToMP3
      {| method := u16 "POST"; pathname := u16 "/api/convert"; requestHeaders := [];
         formData := Throw (u16 "Unrecognized Content-Type header value") |} []
    = (Ok r, calls')
    ∧ status r = 500
    ∧ body r = BodyText (u16 "{" ++ quoteJSONString (u16 "error") ++ u16 ":"
                         ++ quoteJSONString
                              (u16 "Conversion failed: "
                               ++ u16 "Unrecognized Content-Type header value")
                         ++ u16 "}").
Proof.
  apply (exception_text_echoed Worker2.convertVideoToMP3 _
           (u16 "Unrecognized Content-Type header value") []).
  left. reflexivity.
Defined.

(** X12: a video field that is text, not a file. src/worker.js answers 400,
    No video file provided, whatever the text. The second worker says so
    only for an empty text; a non-empty one passes its presence test and is
    answered 400 with the invalid-type message. Neither calls the
    transcoder. *)
Theorem text_field_answers now convert convert2 request form text calls :
  Spec.isUpload request form →
  assocGet form (u16 "video") = Some (FormString text) →
  Worker.handleConversionWith now convert request calls
  = (Ok (Worker.createErrorResponse now (u16 "No video file provided") 400), calls)
  ∧ Worker2.handleVideoConversionWith convert2 request calls
    = (Ok (Worker2.createResponse
             (JObject [(u16 "error",
                        JString (match text with
                                 | [] => u16 "No video file provided"
                                 | _ :: _ => Worker2.invalidTypeMessage
                                 end))]) 400),
       calls).
Proof.
  intros Hupload Hvideo. split.
  - by rewrite (handleConversionWith_upload _ _ _ _ _ Hupload), Hvideo.
  - destruct Hupload as [_ Hform].
    rewrite (handleVideoConversionWith_parsed _ _ _ _ Hform), Hvideo.
    by destruct text.
Qed.

Lemma text_field_answers_witness :
  let request :=
    {| method := u16 "POST"; pathname := u16 "/api/convert";
       requestHeaders := Samples.multipart;
       formData := Ok [(u16 "video", FormString (u16 "clip.mp4"))] |} in
  Worker.handleConversionWith Samples.now Worker.convertVideoToMp3 request []
  = (Ok (Worker.createErrorResponse Samples.now (u16 "No video file provided") 400), [])
  ∧ Worker2.handleVideoConversionWith Worker2.convertVideoToMP3 request []
    = (Ok (Worker2.createResponse
             (JObject [(u16 "error", JString Worker2.invalidTypeMessage)]) 400),
       []).
Proof.
  intros request.
  apply (text_field_answers Samples.now Worker.convertVideoToMp3 Worker2.convertVideoToMP3
           request [(u16 "video", FormString (u16 "clip.mp4"))] (u16 "clip.mp4") []).
  - split; [|done]. exists (u16 "multipart/form-data; boundary=x"). by vm_compute.
  - reflexivity.
Defined.

(** X13: the second worker with its alternative transcoder,
    [convertVideoToMP3External]. The service receives the uploaded file and
    the output format mp3. When it answers ok, the upload is answered 200,
    audio/mpeg, with the bytes of the service as body and the stripped name
    in the Content-Disposition, and without Content-Length header; when it
    answers otherwise, 500 with External conversion service failed; when the
    request to it fails, 500 with the text of the failure. *)
Theorem external_transcoder service request form upload calls :
  formData request = Ok form →
  assocGet form (u16 "video") = Some (FormFile upload) →
  File.type upload ∈ Worker2.allowedTypes →
  File.size upload ≤ Worker2.maxSize →
  ∃ r, Worker2.handleVideoConversionWith (External.convertVideoToMP3External service)
         request calls = (Ok r, calls ++ [upload])
    ∧ match service [(u16 "video", FormFile upload);
                     (u16 "output_format", FormString (u16 "mp3"))] with
      | Ok response =>
        if External.ok response then
          status r = 200
          ∧ body r = BodyBuffer (External.arrayBuffer response)
          ∧ headersGet (headers r) (u16 "Content-Type") = Some (u16 "audio/mpeg")
          ∧ headersGet (headers r) (u16 "Content-Disposition")
            = Some (u16 "attachment; filename=" ++ [0x22]
                    ++ Worker.replaceExtension (File.name upload) ++ u16 ".mp3" ++ [0x22])
          ∧ headersGet (headers r) (u16 "Content-Length") = None
        else
          r = Worker2.createResponse
                (JObject [(u16 "error",
                           JString (u16 "Conversion failed: External conversion service failed"))])
                500
      | Throw message =>
        r = Worker2.createResponse
              (JObject [(u16 "error", JString (u16 "Conversion failed: " ++ message))]) 500
      end.
Proof.
  intros Hform Hvideo Htype Hsize.
  rewrite (handleVideoConversionWith_parsed _ _ _ _ Hform), Hvideo.
  unfold arrayIncludes. rewrite (bool_decide_eq_true_2 _ Htype). cbn [negb].
  rewrite (proj2 (N.ltb_ge _ _) Hsize).
  unfold External.convertVideoToMP3External. cbn [mbind Result_bind].
  destruct (service _) as [[ok bytes]|message]; cbn [External.ok External.arrayBuffer].
  - destruct ok; cbn [negb]; eexists; (split; [reflexivity|]); [|done].
    split_and!; reflexivity.
  - by eexists.
Qed.

Lemma external_transcoder_witness :
  let service (form : FormData) : Result External.ServiceResponse :=
    Ok {| External.ok := true; External.arrayBuffer := [xff; xfb; x90; x00] |} in
  ∃ r, Worker2.handleVideoConversionWith (External.convertVideoToMP3External service)
         (Samples.upload Samples.clipMov) [] = (Ok r, [] ++ [Samples.clipMov])
    ∧ (status r = 200
       ∧ body r = BodyBuffer [xff; xfb; x90; x00]
       ∧ headersGet (headers r) (u16 "Content-Type") = Some (u16 "audio/mpeg")
       ∧ headersGet (headers r) (u16 "Content-Disposition")
         = Some (u16 "attachment; filename=" ++ [0x22]
                 ++ Worker.replaceExtension (File.name Samples.clipMov) ++ u16 ".mp3"
                 ++ [0x22])
       ∧ headersGet (headers r) (u16 "Content-Length") = None).
Proof.
  intros service.
  apply (external_transcoder service (Samples.upload Samples.clipMov)
           [(u16 "video", FormFile Samples.clipMov)] Samples.clipMov []).
  - reflexivity.
  - reflexivity.
  - apply (bool_decide_unpack _). vm_compute. exact I.
  - vm_compute. discriminate.
Defined.

(** ** The files the Express handler touches *)

Ltac files_solver :=
  rewrite ?elem_of_difference, ?elem_of_union, ?elem_of_singleton; tauto.

(** X14: whatever ffmpeg and the download do, the handler leaves every file
    other than the upload and output/<uuid>.mp3 as it found it. *)
Theorem convert_touches_two_files reqFile uuid event download w path :
  reqFile ≠ Some path →
  path ≠ ("output/" +:+ uuid +:+ ".mp3")%string →
  path ∈ Express.files (Express.worldOf (Express.convert reqFile uuid event download w))
  ↔ path ∈ Express.files w.
Proof.
  intros Hinput Houtput. unfold Express.convert, Express.unlinkSync.
  destruct reqFile as [inputPath|]; [|done].
  assert (Hne : path ≠ inputPath) by congruence.
  destruct event as [|partialOutput].
  - cbn [Express.files]. case_bool_decide; [|cbn; files_solver].
    cbn [Express.files]. destruct download.
    + case_bool_decide; cbn; files_solver.
    + cbn. files_solver.
  - destruct partialOutput; cbn; files_solver.
Qed.

Lemma convert_touches_two_files_witness :
  let w := {| Express.files := {[Samples.inputPath; "uploads/77c0"%string]};
              Express.reply := Express.ReplyNone |} in
  "uploads/77c0"%string
    ∈ Express.files (Express.worldOf (Express.convert (Some Samples.inputPath) Samples.uuid
                                        Express.FfmpegEnd Express.DownloadCallsBack w))
  ↔ "uploads/77c0"%string ∈ Express.files w.
Proof.
  intros w.
  apply (convert_touches_two_files (Some Samples.inputPath) Samples.uuid Express.FfmpegEnd
           Express.DownloadCallsBack w "uploads/77c0"%string).
  - discriminate.
  - discriminate.
Defined.

Lemma convert_success_cleans_witness :
  let w' := Express.worldOf (Express.convert (Some Samples.inputPath) Samples.uuid
                               Express.FfmpegEnd Express.DownloadCallsBack Samples.disk) in
  (Samples.inputPath ∉ Express.files w')
  ∧ (("output/" +:+ Samples.uuid +:+ ".mp3")%string ∉ Express.files w').
Proof.
  apply (convert_success_cleans Samples.inputPath Samples.uuid Samples.disk).
  - set_solver.
  - discriminate.
Defined.

(** X16: after an [error] event of ffmpeg the handler has removed nothing:
    every file that was on disk is still there, the upload included, and the
    answer is 500, Conversion failed. *)
Theorem convert_error_removes_nothing inputPath uuid partialOutput download w :
  let w' := Express.worldOf (Express.convert (Some inputPath) uuid
                               (Express.FfmpegError partialOutput) download w) in
  Express.files w ⊆ Express.files w'
  ∧ Express.reply w' = Express.ReplySend 500 "Conversion failed".
Proof.
  intros w'. subst w'. unfold Express.convert. cbn [Express.worldOf Express.files Express.reply].
  split; [|done]. destruct partialOutput; [apply union_subseteq_l | done].
Qed.

(** ** Typed arrays *)

(** X17: writing a header at offset 0 and data right after it into a fresh
    array of their joint length never throws, and gives the header followed
    by the data: this is how the placeholder buffer is put together. *)
Theorem typedArraySet_concat (header data : list byte) :
  (result ← typedArraySet (newUint8Array (length header + length data)) header 0;
   typedArraySet result data (length header))
  = Ok (header ++ data).
Proof.
  unfold typedArraySet at 2. unfold newUint8Array.
  rewrite (bool_decide_eq_true_2 (0 + length header ≤ _)%nat)
    by (rewrite length_replicate; lia).
  cbn [mbind Result_bind]. rewrite take_0, drop_replicate. cbn [app].
  replace (length header + length data - (0 + length header))%nat with (length data) by lia.
  unfold typedArraySet.
  rewrite bool_decide_eq_true_2 by (rewrite length_app, length_replicate; lia).
  f_equal. rewrite take_app_length.
  rewrite drop_ge by (rewrite length_app, length_replicate; lia).
  by rewrite app_nil_r.
Qed.

(** ** What src/worker.js sends back *)

(** X23: with its own transcoder, src/worker.js answers every accepted
    upload with the same body, the 1040 placeholder bytes, under
    Content-Length 1040 and a file name made from the name of the upload;
    nothing of the uploaded bytes reaches the answer. *)
Theorem placeholder_download now request form upload calls :
  Spec.isUpload request form →
  assocGet form (u16 "video") = Some (FormFile upload) →
  Spec.workerAccepts upload →
  ∃ r, Worker.handleConversion now request calls = (Ok r, calls ++ [upload])
    ∧ status r = 200
    ∧ body r = BodyBuffer ([xff; xfb; x90; x00] ++ replicate 1036 x00)
    ∧ headersGet (headers r) (u16 "Content-Length") = Some (u16 "1040")
    ∧ headersGet (headers r) (u16 "Content-Disposition")
      = Some (u16 "attachment; filename=" ++ [0x22]
              ++ Worker.replaceExtension (File.name upload) ++ u16 ".mp3" ++ [0x22]).
Proof.
  intros Hupload Hvideo [Htype Hsize]. unfold Worker.handleConversion.
  rewrite (handleConversionWith_upload _ _ _ _ _ Hupload), Hvideo.
  assert (Hcheck : negb (arrayIncludes Worker.allowedTypes (File.type upload))
                   && negb (Worker.isVideoFile (File.name upload)) = false).
  { unfold arrayIncludes. destruct Htype as [Hin| ->].
    - by rewrite (bool_decide_eq_true_2 _ Hin).
    - apply andb_false_r. }
  change Worker.maxSize with Spec.maxUploadSize.
  rewrite Hcheck, (proj2 (N.ltb_ge _ _) Hsize).
  destruct (convertVideoToMp3_constant upload upload) as [_ ->].
  eexists. split; [reflexivity|]. split_and!; try reflexivity.
  cbn [headers newResponse headersGet].
  cbn. by rewrite <- !app_assoc.
Qed.

Lemma placeholder_download_witness :
  ∃ r, Worker.handleConversion Samples.now (Samples.upload Samples.clipMov) []
       = (Ok r, [] ++ [Samples.clipMov])
    ∧ status r = 200
    ∧ body r = BodyBuffer ([xff; xfb; x90; x00] ++ replicate 1036 x00)
    ∧ headersGet (headers r) (u16 "Content-Length") = Some (u16 "1040")
    ∧ headersGet (headers r) (u16 "Content-Disposition")
      = Some (u16 "attachment; filename=" ++ [0x22]
              ++ Worker.replaceExtension (File.name Samples.clipMov) ++ u16 ".mp3"
              ++ [0x22]).
Proof.
  apply (placeholder_download Samples.now (Samples.upload Samples.clipMov)
           [(u16 "video", FormFile Samples.clipMov)] Samples.clipMov []).
  - apply upload_isUpload.
  - reflexivity.
  - split.
    + left. apply (bool_decide_unpack _). vm_compute. exact I.
    + vm_compute. discriminate.
Defined.
